(** * String Analyzer Service (hng-stage1-node): analysis, store and filters

    A shallow embedding of the request handlers of [src/server.js] and of
    the older variants of the same server kept in the repository
    ([src/server.js], second document; [src/unnamed/part_000];
    [src/unnamed/part_001]).

    Modelling conventions.
    - A JavaScript string is a Rocq [string]; the embedding covers text
      made of ASCII characters, where UTF-16 code units, code points and
      UTF-8 bytes coincide.  [toLowerCase] folds the letters A-Z, the
      white space of [trim] and of the regular expression class [\s] is
      the ASCII part of the ECMAScript set (TAB, LF, VT, FF, CR, SPACE).
    - A JavaScript number is a [Z]; the embedding is exact for the safe
      integers (below 2^53), which is where the handlers compute.
    - The [Map] named [strings] is an association list in insertion
      order, as [Array.from(strings.values())] enumerates it.
    - [new Date().toISOString()] is an input [now] of the handlers.
    - [crypto.createHash("sha256")] is the FIPS 180-4 function, written
      out below so that digests of concrete values can be computed. *)

From Stdlib Require Import ZArith List String Ascii Bool Lia Btauto.
Import ListNotations.
Open Scope Z_scope.

(* ================================================================== *)
(** ** SHA-256 (node's [crypto] module) *)
(* ================================================================== *)

Module SHA256.

Definition w32 (x : Z) : Z := x mod 4294967296.
Definition add32 (x y : Z) : Z := w32 (x + y).
Definition rotr (n x : Z) : Z :=
  Z.lor (Z.shiftr x n) (w32 (Z.shiftl x (32 - n))).
Definition not32 (x : Z) : Z := Z.lxor x 4294967295.
Definition Ch (x y z : Z) : Z := Z.lxor (Z.land x y) (Z.land (not32 x) z).
Definition Maj (x y z : Z) : Z :=
  Z.lxor (Z.lxor (Z.land x y) (Z.land x z)) (Z.land y z).
Definition Sigma0 (x : Z) : Z :=
  Z.lxor (Z.lxor (rotr 2 x) (rotr 13 x)) (rotr 22 x).
Definition Sigma1 (x : Z) : Z :=
  Z.lxor (Z.lxor (rotr 6 x) (rotr 11 x)) (rotr 25 x).
Definition sigma0 (x : Z) : Z :=
  Z.lxor (Z.lxor (rotr 7 x) (rotr 18 x)) (Z.shiftr x 3).
Definition sigma1 (x : Z) : Z :=
  Z.lxor (Z.lxor (rotr 17 x) (rotr 19 x)) (Z.shiftr x 10).

(** The round constants are the first 32 bits of the fractional parts
    of the cube roots of the first 64 primes, the initial hash value
    those of the square roots of the first 8. *)
Definition primes : list Z :=
  [2; 3; 5; 7; 11; 13; 17; 19; 23; 29; 31; 37; 41; 43; 47; 53; 59; 61; 67;
   71; 73; 79; 83; 89; 97; 101; 103; 107; 109; 113; 127; 131; 137; 139;
   149; 151; 157; 163; 167; 173; 179; 181; 191; 193; 197; 199; 211; 223;
   227; 229; 233; 239; 241; 251; 257; 263; 269; 271; 277; 281; 283; 293;
   307; 311].

(** The integer cube root, one bit at a time from bit [bits - 1] down. *)
Fixpoint cubeRoot (bits : nat) (r n : Z) : Z :=
  match bits with
  | O => r
  | S b =>
      let r' := r + 2 ^ Z.of_nat b in
      cubeRoot b (if r' * r' * r' <=? n then r' else r) n
  end.

Definition K : list Z :=
  Eval vm_compute in map (fun p => w32 (cubeRoot 40 0 (p * 2 ^ 96))) primes.

Definition H0 : list Z :=
  Eval vm_compute in map (fun p => w32 (Z.sqrt (p * 2 ^ 64))) (firstn 8 primes).

(** The low [n] bytes of [x], most significant first. *)
Fixpoint be_bytes (n : nat) (x : Z) : list Z :=
  match n with
  | O => []
  | S n' => (Z.shiftr x (8 * Z.of_nat n')) mod 256 :: be_bytes n' x
  end.

(** Padding: a 1 bit, zeros up to 56 mod 64 bytes, the bit length. *)
Definition pad (msg : list Z) : list Z :=
  let l := Z.of_nat (List.length msg) in
  let k := (55 - l) mod 64 in
  msg ++ [128] ++ repeat 0 (Z.to_nat k) ++ be_bytes 8 (8 * l).

Fixpoint words (fuel : nat) (bs : list Z) : list Z :=
  match fuel, bs with
  | S f, b0 :: b1 :: b2 :: b3 :: r =>
      (b0 * 16777216 + b1 * 65536 + b2 * 256 + b3) :: words f r
  | _, _ => []
  end.

(** Message schedule, the most recent word first. *)
Fixpoint schedule (n : nat) (rw : list Z) : list Z :=
  match n with
  | O => rw
  | S n' =>
      let w := add32 (add32 (sigma1 (nth 1 rw 0)) (nth 6 rw 0))
                     (add32 (sigma0 (nth 14 rw 0)) (nth 15 rw 0)) in
      schedule n' (w :: rw)
  end.

Record regs := mkRegs
  { ra : Z; rb : Z; rc : Z; rd : Z; re : Z; rf : Z; rg : Z; rh : Z }.

Definition round (s : regs) (kw : Z * Z) : regs :=
  let (k, w) := kw in
  let t1 := add32 (add32 (add32 (rh s) (Sigma1 (re s)))
                         (add32 (Ch (re s) (rf s) (rg s)) k)) w in
  let t2 := add32 (Sigma0 (ra s)) (Maj (ra s) (rb s) (rc s)) in
  mkRegs (add32 t1 t2) (ra s) (rb s) (rc s)
         (add32 (rd s) t1) (re s) (rf s) (rg s).

Definition regs_of (h : list Z) : regs :=
  mkRegs (nth 0 h 0) (nth 1 h 0) (nth 2 h 0) (nth 3 h 0)
         (nth 4 h 0) (nth 5 h 0) (nth 6 h 0) (nth 7 h 0).

Definition list_of (s : regs) : list Z :=
  [ra s; rb s; rc s; rd s; re s; rf s; rg s; rh s].

Definition compress (h : list Z) (block : list Z) : list Z :=
  let w := rev (schedule 48 (rev block)) in
  let s := fold_left round (combine K w) (regs_of h) in
  map (fun p => add32 (fst p) (snd p)) (combine h (list_of s)).

Fixpoint blocks (fuel : nat) (ws : list Z) : list (list Z) :=
  match fuel with
  | O => []
  | S f => match ws with
           | [] => []
           | _ => firstn 16 ws :: blocks f (skipn 16 ws)
           end
  end.

Definition digest_words (msg : list Z) : list Z :=
  let bs := pad msg in
  let ws := words (List.length bs) bs in
  fold_left compress (blocks (List.length ws) ws) H0.

Definition hex_digit (d : Z) : ascii :=
  if d <? 10 then ascii_of_nat (Z.to_nat (48 + d))
  else ascii_of_nat (Z.to_nat (87 + d)).

Fixpoint hex_of_bytes (bs : list Z) : string :=
  match bs with
  | [] => EmptyString
  | b :: r =>
      String (hex_digit (b / 16)) (String (hex_digit (b mod 16)) (hex_of_bytes r))
  end.

Definition bytes_of_string (s : string) : list Z :=
  map (fun c => Z.of_nat (nat_of_ascii c)) (list_ascii_of_string s).

(** [crypto.createHash("sha256").update(s).digest("hex")] *)
Definition hex (s : string) : string :=
  hex_of_bytes (flat_map (be_bytes 4) (digest_words (bytes_of_string s))).

End SHA256.

(* ================================================================== *)
(** ** The JavaScript string operations the handlers call *)
(* ================================================================== *)

Open Scope string_scope.
Open Scope Z_scope.

Module JS.

Definition code (c : ascii) : Z := Z.of_nat (nat_of_ascii c).

(** White space of [trim] and of [\s]. *)
Definition isWhiteSpace (c : ascii) : bool :=
  let n := code c in ((9 <=? n) && (n <=? 13)) || (n =? 32).

(** [\d] *)
Definition isDigit (c : ascii) : bool :=
  let n := code c in (48 <=? n) && (n <=? 57).

(** [\w] *)
Definition isWordChar (c : ascii) : bool :=
  let n := code c in
  ((65 <=? n) && (n <=? 90)) || ((97 <=? n) && (n <=? 122))
  || isDigit c || (n =? 95).

Definition lowerChar (c : ascii) : ascii :=
  let n := code c in
  if (65 <=? n) && (n <=? 90) then ascii_of_nat (nat_of_ascii c + 32) else c.

Fixpoint toLowerCase (s : string) : string :=
  match s with
  | EmptyString => EmptyString
  | String c r => String (lowerChar c) (toLowerCase r)
  end.

Fixpoint skipWhile (p : ascii -> bool) (s : string) : string :=
  match s with
  | EmptyString => EmptyString
  | String c r => if p c then skipWhile p r else s
  end.

Fixpoint takeWhile (p : ascii -> bool) (s : string) : string :=
  match s with
  | EmptyString => EmptyString
  | String c r => if p c then String c (takeWhile p r) else EmptyString
  end.

Definition trimStart (s : string) : string := skipWhile isWhiteSpace s.

Fixpoint trimEnd (s : string) : string :=
  match s with
  | EmptyString => EmptyString
  | String c r =>
      match trimEnd r with
      | EmptyString => if isWhiteSpace c then EmptyString else String c EmptyString
      | r' => String c r'
      end
  end.

Definition trim (s : string) : string := trimEnd (trimStart s).

(** [s.split("").reverse().join("")] *)
Fixpoint reverse (s : string) : string :=
  match s with
  | EmptyString => EmptyString
  | String c r => reverse r ++ String c EmptyString
  end.

(** What is left of [s] after the literal [p], when [s] starts with it. *)
Fixpoint dropPrefix (p s : string) : option string :=
  match p with
  | EmptyString => Some s
  | String a p' =>
      match s with
      | EmptyString => None
      | String b s' => if Ascii.eqb a b then dropPrefix p' s' else None
      end
  end.

(** Leftmost match: the matcher [m] is tried at every position of [s],
    from the left, as [String.prototype.match] and [includes] do. *)
Fixpoint search {A : Type} (m : string -> option A) (s : string) : option A :=
  match m s with
  | Some x => Some x
  | None =>
      match s with
      | EmptyString => None
      | String _ r => search m r
      end
  end.

(** [s.includes(needle)] *)
Definition includes (s needle : string) : bool :=
  match search (dropPrefix needle) s with
  | Some _ => true
  | None => false
  end.

(** [s.split(/\s+/)]: the pieces between the runs of white space; a run
    at either end leaves an empty piece there, and the empty string
    splits into one empty piece. *)
Fixpoint splitRuns (inRun : bool) (piece : string) (s : string) : list string :=
  match s with
  | EmptyString => [piece]
  | String c r =>
      if isWhiteSpace c then
        if inRun then splitRuns true EmptyString r
        else piece :: splitRuns true EmptyString r
      else splitRuns false (piece ++ String c EmptyString) r
  end.

Definition split_ws (s : string) : list string := splitRuns false EmptyString s.

(** [new Set(s).size] *)
Definition setSize (s : string) : Z :=
  Z.of_nat (List.length (nodup ascii_dec (list_ascii_of_string s))).

(** [for (const char of value) map[char] = (map[char] || 0) + 1]: the
    counts, listed by first occurrence (the order in which a JavaScript
    object enumerates its keys is not modelled). *)
Fixpoint bump (c : ascii) (m : list (ascii * Z)) : list (ascii * Z) :=
  match m with
  | [] => [(c, 1)]
  | (d, n) :: r => if Ascii.eqb c d then (d, n + 1) :: r else (d, n) :: bump c r
  end.

Definition frequency (s : string) : list (ascii * Z) :=
  fold_left (fun m c => bump c m) (list_ascii_of_string s) [].

Fixpoint digits (acc : option Z) (s : string) : option Z :=
  match s with
  | EmptyString => acc
  | String c r =>
      if isDigit c then
        digits (Some (10 * (match acc with Some a => a | None => 0 end)
                      + (code c - 48))) r
      else acc
  end.

(** [parseInt(s, 10)]: leading white space, an optional sign, then the
    longest run of decimal digits; [None] is [NaN]. *)
Definition parseInt (s : string) : option Z :=
  match trimStart s with
  | String c r =>
      if Ascii.eqb c "-"%char then option_map Z.opp (digits None r)
      else if Ascii.eqb c "+"%char then digits None r
      else digits None (String c r)
  | EmptyString => None
  end.

Definition hexValue (c : ascii) : option Z :=
  let n := code c in
  if isDigit c then Some (n - 48)
  else if (97 <=? n) && (n <=? 102) then Some (n - 87)
  else if (65 <=? n) && (n <=? 70) then Some (n - 55)
  else None.

Fixpoint hexDigits (acc : option Z) (s : string) : option Z :=
  match s with
  | EmptyString => acc
  | String c r =>
      match hexValue c with
      | Some d =>
          hexDigits (Some (16 * (match acc with Some a => a | None => 0 end) + d)) r
      | None => acc
      end
  end.

(** The digits of [parseInt(s)] after the sign: a [0x] or [0X] prefix
    switches to base 16. *)
Definition unsignedNoRadix (s : string) : option Z :=
  match s with
  | String c0 (String c1 r) =>
      if Ascii.eqb c0 "0"%char && (Ascii.eqb c1 "x"%char || Ascii.eqb c1 "X"%char)
      then hexDigits None r
      else digits None s
  | _ => digits None s
  end.

(** [parseInt(s)], no radix given. *)
Definition parseIntNoRadix (s : string) : option Z :=
  match trimStart s with
  | String c r =>
      if Ascii.eqb c "-"%char then option_map Z.opp (unsignedNoRadix r)
      else if Ascii.eqb c "+"%char then unsignedNoRadix r
      else unsignedNoRadix (String c r)
  | EmptyString => None
  end.

(** [s.length] *)
Definition length (s : string) : Z := Z.of_nat (String.length s).

End JS.

(* ================================================================== *)
(** ** Data: analyzed strings, filters, the store *)
(* ================================================================== *)

Module Properties.
Record t := mk
  { length : Z;
    is_palindrome : bool;
    unique_characters : Z;
    word_count : Z;
    sha256_hash : string;
    character_frequency_map : list (ascii * Z) }.
End Properties.

Module Analyzed.
Record t := mk
  { id : string;
    value : string;
    properties : Properties.t;
    created_at : string }.
End Analyzed.

(** The [filters] object: a key that is not set is [None]. *)
Module Filters.
Record t := mk
  { is_palindrome : option bool;
    word_count : option Z;
    min_length : option Z;
    max_length : option Z;
    contains_character : option string;
    value_contains : option string }.

Definition empty : t := mk None None None None None None.

Definition set_is_palindrome (b : bool) (f : t) : t :=
  mk (Some b) (word_count f) (min_length f) (max_length f)
     (contains_character f) (value_contains f).
Definition set_word_count (n : Z) (f : t) : t :=
  mk (is_palindrome f) (Some n) (min_length f) (max_length f)
     (contains_character f) (value_contains f).
Definition set_min_length (n : Z) (f : t) : t :=
  mk (is_palindrome f) (word_count f) (Some n) (max_length f)
     (contains_character f) (value_contains f).
Definition set_max_length (n : Z) (f : t) : t :=
  mk (is_palindrome f) (word_count f) (min_length f) (Some n)
     (contains_character f) (value_contains f).
Definition set_contains_character (c : string) (f : t) : t :=
  mk (is_palindrome f) (word_count f) (min_length f) (max_length f)
     (Some c) (value_contains f).
Definition set_value_contains (v : string) (f : t) : t :=
  mk (is_palindrome f) (word_count f) (min_length f) (max_length f)
     (contains_character f) (Some v).

Definition isSet {A : Type} (o : option A) : Z :=
  match o with Some _ => 1 | None => 0 end.

(** [Object.keys(filters).length] *)
Definition keys_length (f : t) : Z :=
  isSet (is_palindrome f) + isSet (word_count f) + isSet (min_length f)
  + isSet (max_length f) + isSet (contains_character f)
  + isSet (value_contains f).
End Filters.

(** The [Map] from id to analyzed string, in insertion order. *)
Module Store.
Definition t := list (string * Analyzed.t).

Definition has (k : string) (m : t) : bool :=
  existsb (fun p => String.eqb (fst p) k) m.

Definition get (k : string) (m : t) : option Analyzed.t :=
  option_map snd (find (fun p => String.eqb (fst p) k) m).

(** [set] keeps the position of a key that is present. *)
Definition set (k : string) (v : Analyzed.t) (m : t) : t :=
  if has k m
  then map (fun p => if String.eqb (fst p) k then (k, v) else p) m
  else (m ++ [(k, v)])%list.

(** [delete] answers whether the key was there. *)
Definition delete (k : string) (m : t) : bool * t :=
  (has k m, filter (fun p => negb (String.eqb (fst p) k)) m).

Definition values (m : t) : list Analyzed.t := map snd m.
Definition keys (m : t) : list string := map fst m.
Definition size (m : t) : Z := Z.of_nat (List.length m).
End Store.

(** A request body field or a route parameter, as the handler sees it. *)
Inductive JsValue :=
| JUndefined
| JNull
| JString (s : string)
| JOther.

(** The query string of [GET /strings]; a parameter that is absent is
    [None], one that is given is the text after the [=]. *)
Module Query.
Record t := mk
  { is_palindrome : option string;
    min_length : option string;
    max_length : option string;
    word_count : option string;
    contains_character : option string }.
End Query.

Inductive Response :=
| Error (status : Z) (error : string)
| Created (message : option string) (data : Analyzed.t)
| Found (data : Analyzed.t)
| NoContent
| Listing (data : list Analyzed.t) (count : Z) (filters_applied : Filters.t)
| Echoed (data : list Analyzed.t) (count : Z) (filters_applied : Query.t)
| Interpreted (data : list Analyzed.t) (count : Z)
              (original : string) (parsed_filters : Filters.t).

Definition parsed_filters_of (r : Response) : option Filters.t :=
  match r with
  | Interpreted _ _ _ f => Some f
  | _ => None
  end.

Definition data_of (r : Response) : option (list Analyzed.t) :=
  match r with
  | Listing d _ _ => Some d
  | Echoed d _ _ => Some d
  | Interpreted d _ _ _ => Some d
  | _ => None
  end.

(** Early return of a handler: [inl] is the response already sent. *)
Definition andThen {S : Type} (x : Response + S) (k : S -> Response + S)
  : Response + S :=
  match x with
  | inl r => inl r
  | inr s => k s
  end.

Notation "x >>= k" := (andThen x k) (at level 50, left associativity).

(* ================================================================== *)
(** ** [src/server.js] *)
(* ================================================================== *)

Module Server.
Import JS.

(** [function analyzeString(value)] *)
Definition analyzeString (value : string) (now : string) : Analyzed.t :=
  let length := JS.length value in
  let lowerValue := toLowerCase value in
  let is_palindrome := String.eqb lowerValue (reverse lowerValue) in
  let unique_characters := setSize value in
  let word_count :=
    if String.eqb (trim value) "" then 0
    else Z.of_nat (List.length (split_ws (trim value))) in
  let sha256_hash := SHA256.hex value in
  let character_frequency_map := frequency value in
  Analyzed.mk sha256_hash value
    (Properties.mk length is_palindrome unique_characters word_count
       sha256_hash character_frequency_map)
    now.

(** [app.post("/strings")] *)
Definition postStrings (value : JsValue) (now : string) (strings : Store.t)
  : Response * Store.t :=
  match value with
  | JUndefined | JNull => (Error 400 "Missing 'value' field.", strings)
  | JOther =>
      (Error 422 "Invalid data type for 'value'. Must be a string.", strings)
  | JString value =>
      let trimmedValue := trim value in
      if String.eqb trimmedValue "" then
        (Error 400 "Value cannot be an empty string.", strings)
      else
        let analyzed := analyzeString trimmedValue now in
        if Store.has (Analyzed.id analyzed) strings then
          (Error 409 "String already exists in the system.", strings)
        else
          (Created None analyzed,
           Store.set (Analyzed.id analyzed) analyzed strings)
  end.

(** [app.get("/strings/:value")] *)
Definition getString (searchValue : string) (now : string) (strings : Store.t)
  : Response :=
  let tempAnalyzed := analyzeString searchValue now in
  let idToSearch := Analyzed.id tempAnalyzed in
  match Store.get idToSearch strings with
  | Some foundString => Found foundString
  | None => Error 404 "String not found"
  end.

(** [app.delete("/strings/:value")] *)
Definition deleteString (deleteValue : string) (now : string) (strings : Store.t)
  : Response * Store.t :=
  let tempAnalyzed := analyzeString deleteValue now in
  let idToDelete := Analyzed.id tempAnalyzed in
  let (deleted, strings') := Store.delete idToDelete strings in
  if deleted then (NoContent, strings')
  else (Error 404 "String not found", strings').

(** The running state of [app.get("/strings")]: [results] and
    [filters_applied]. *)
Definition Listed : Type := list Analyzed.t * Filters.t.

Definition by_is_palindrome (filters : Query.t) (st : Listed) : Response + Listed :=
  let (results, filters_applied) := st in
  match Query.is_palindrome filters with
  | None => inr st
  | Some raw =>
      let isPalindrome := toLowerCase raw in
      if negb (String.eqb isPalindrome "true")
         && negb (String.eqb isPalindrome "false") then
        inl (Error 400 "Invalid value for is_palindrome. Must be 'true' or 'false'.")
      else
        let boolValue := String.eqb isPalindrome "true" in
        inr (filter (fun s =>
                       Bool.eqb (Properties.is_palindrome (Analyzed.properties s))
                                boolValue) results,
             Filters.set_is_palindrome boolValue filters_applied)
  end.

Definition by_min_length (filters : Query.t) (st : Listed) : Response + Listed :=
  let (results, filters_applied) := st in
  match Query.min_length filters with
  | None => inr st
  | Some raw =>
      match parseInt raw with
      | None =>
          inl (Error 400 "Invalid value for min_length. Must be a non-negative integer.")
      | Some minLength =>
          if minLength <? 0 then
            inl (Error 400 "Invalid value for min_length. Must be a non-negative integer.")
          else
            inr (filter (fun s =>
                           Properties.length (Analyzed.properties s) >=? minLength)
                        results,
                 Filters.set_min_length minLength filters_applied)
      end
  end.

Definition by_max_length (filters : Query.t) (st : Listed) : Response + Listed :=
  let (results, filters_applied) := st in
  match Query.max_length filters with
  | None => inr st
  | Some raw =>
      match parseInt raw with
      | None =>
          inl (Error 400 "Invalid value for max_length. Must be a non-negative integer.")
      | Some maxLength =>
          if maxLength <? 0 then
            inl (Error 400 "Invalid value for max_length. Must be a non-negative integer.")
          else
            inr (filter (fun s =>
                           Properties.length (Analyzed.properties s) <=? maxLength)
                        results,
                 Filters.set_max_length maxLength filters_applied)
      end
  end.

Definition by_word_count (filters : Query.t) (st : Listed) : Response + Listed :=
  let (results, filters_applied) := st in
  match Query.word_count filters with
  | None => inr st
  | Some raw =>
      match parseInt raw with
      | None =>
          inl (Error 400 "Invalid value for word_count. Must be a non-negative integer.")
      | Some wordCount =>
          if wordCount <? 0 then
            inl (Error 400 "Invalid value for word_count. Must be a non-negative integer.")
          else
            inr (filter (fun s =>
                           Properties.word_count (Analyzed.properties s) =? wordCount)
                        results,
                 Filters.set_word_count wordCount filters_applied)
      end
  end.

Definition by_contains_character (filters : Query.t) (st : Listed)
  : Response + Listed :=
  let (results, filters_applied) := st in
  match Query.contains_character filters with
  | None => inr st
  | Some char =>
      if JS.length char >? 1 then
        inl (Error 400 "Invalid value for contains_character. Must be a single character string.")
      else
        let lowerChar := toLowerCase char in
        inr (filter (fun s => includes (toLowerCase (Analyzed.value s)) lowerChar)
                    results,
             Filters.set_contains_character char filters_applied)
  end.

(** [app.get("/strings")] *)
Definition listStrings (filters : Query.t) (strings : Store.t) : Response :=
  match
    inr (Store.values strings, Filters.empty)
      >>= by_is_palindrome filters
      >>= by_min_length filters
      >>= by_max_length filters
      >>= by_word_count filters
      >>= by_contains_character filters
  with
  | inl sent => sent
  | inr (results, filters_applied) =>
      Listing results (Z.of_nat (List.length results)) filters_applied
  end.

(** [/longer than\s*(\d+)/] and [/shorter than\s*(\d+)/] tried at one
    position; the answer is the captured digits. *)
Definition keywordNumber (keyword : string) (s : string) : option string :=
  match dropPrefix keyword s with
  | None => None
  | Some r =>
      let ds := takeWhile isDigit (skipWhile isWhiteSpace r) in
      if String.eqb ds "" then None else Some ds
  end.

(** [ the letter (\w)] *)
Definition theLetter (r : string) : option string :=
  match dropPrefix " the letter " r with
  | Some (String c _) =>
      if isWordChar c then Some (String c EmptyString) else None
  | _ => None
  end.

(** [/contain(?:ing)? the letter (\w)/] tried at one position. *)
Definition containLetter (s : string) : option string :=
  match dropPrefix "contain" s with
  | None => None
  | Some r =>
      match
        match dropPrefix "ing" r with
        | Some r' => theLetter r'
        | None => None
        end
      with
      | Some c => Some c
      | None => theLetter r
      end
  end.

(** [lowerQuery.match(/longer than\s*(\d+)/)]: group 1 of the leftmost
    match. *)
Definition minLengthMatch (lowerQuery : string) : option string :=
  search (keywordNumber "longer than") lowerQuery.

(** [lowerQuery.match(/shorter than\s*(\d+)/)] *)
Definition maxLengthMatch (lowerQuery : string) : option string :=
  search (keywordNumber "shorter than") lowerQuery.

(** [lowerQuery.match(/contain(?:ing)? the letter (\w)/)] *)
Definition charMatch (lowerQuery : string) : option string :=
  search containLetter lowerQuery.

Definition isNegativePalindrome (lowerQuery : string) : bool :=
  includes lowerQuery "non-palindrome" || includes lowerQuery "not palindrome".

Definition isPositivePalindrome (lowerQuery : string) : bool :=
  includes lowerQuery "palindrome" && negb (isNegativePalindrome lowerQuery).

(** The [filters] object the natural-language handler builds from
    [lowerQuery] (sections 1 to 5 of the handler). *)
Definition parseFilters (lowerQuery : string) : Filters.t :=
  let filters := Filters.empty in
  let isNegativePalindrome := isNegativePalindrome lowerQuery in
  let isPositivePalindrome := isPositivePalindrome lowerQuery in
  let filters :=
    if isPositivePalindrome then Filters.set_is_palindrome true filters
    else filters in
  let filters :=
    if isNegativePalindrome then Filters.set_is_palindrome false filters
    else filters in
  let filters :=
    if includes lowerQuery "single word" then Filters.set_word_count 1 filters
    else filters in
  let filters :=
    match minLengthMatch lowerQuery with
    | Some group1 =>
        match parseInt group1 with
        | Some n => Filters.set_min_length (n + 1) filters
        | None => filters
        end
    | None => filters
    end in
  let filters :=
    match maxLengthMatch lowerQuery with
    | Some group1 =>
        match parseInt group1 with
        | Some n => Filters.set_max_length (n - 1) filters
        | None => filters
        end
    | None => filters
    end in
  let filters :=
    if includes lowerQuery "first vowel" then
      Filters.set_contains_character "a" filters
    else
      match charMatch lowerQuery with
      | Some group1 => Filters.set_contains_character group1 filters
      | None => filters
      end in
  let filters :=
    if Filters.keys_length filters =? 0 then
      Filters.set_value_contains lowerQuery filters
    else filters in
  filters.

(** Section 6 of the handler: the filters applied one after another. *)
Definition executeFiltering (filters : Filters.t) (results : list Analyzed.t)
  : list Analyzed.t :=
  let results :=
    match Filters.is_palindrome filters with
    | Some b =>
        filter (fun s =>
                  Bool.eqb (Properties.is_palindrome (Analyzed.properties s)) b)
               results
    | None => results
    end in
  let results :=
    match Filters.word_count filters with
    | Some n =>
        filter (fun s => Properties.word_count (Analyzed.properties s) =? n)
               results
    | None => results
    end in
  let results :=
    match Filters.min_length filters with
    | Some n =>
        filter (fun s => Properties.length (Analyzed.properties s) >=? n) results
    | None => results
    end in
  let results :=
    match Filters.max_length filters with
    | Some n =>
        filter (fun s => Properties.length (Analyzed.properties s) <=? n) results
    | None => results
    end in
  let results :=
    match Filters.contains_character filters with
    | Some c =>
        filter (fun s => includes (toLowerCase (Analyzed.value s)) (toLowerCase c))
               results
    | None => results
    end in
  let results :=
    match Filters.value_contains filters with
    | Some v =>
        filter (fun s => includes (toLowerCase (Analyzed.value s)) v) results
    | None => results
    end in
  results.

(** [app.get("/strings/filter-by-natural-language")]; [query] is
    [req.query.query]. *)
Definition filterByNaturalLanguage (query : JsValue) (strings : Store.t)
  : Response :=
  match query with
  | JString query =>
      if String.eqb query "" then
        Error 400 "Missing or invalid 'query' parameter"
      else
        let lowerQuery := toLowerCase query in
        if String.eqb (trim lowerQuery) "" then
          Interpreted (Store.values strings) (Store.size strings) "" Filters.empty
        else
          let filters := parseFilters lowerQuery in
          let results := executeFiltering filters (Store.values strings) in
          Interpreted results (Z.of_nat (List.length results)) query filters
  | _ => Error 400 "Missing or invalid 'query' parameter"
  end.

End Server.

(* ================================================================== *)
(** ** [src/server.js], second document (file-backed variant) *)
(* ================================================================== *)

Module ServerFile.
Import JS.

Definition analyzeString (value : string) (now : string) : Analyzed.t :=
  let length := JS.length value in
  let is_palindrome := String.eqb value (reverse value) in
  let unique_characters := setSize value in
  let word_count := Z.of_nat (List.length (split_ws (trim value))) in
  let sha256_hash := SHA256.hex value in
  let character_frequency_map := frequency value in
  Analyzed.mk sha256_hash value
    (Properties.mk length is_palindrome unique_characters word_count
       sha256_hash character_frequency_map)
    now.

(** [app.post("/strings")]: no look-up before [strings.set]. *)
Definition postStrings (value : JsValue) (now : string) (strings : Store.t)
  : Response * Store.t :=
  match value with
  | JString value =>
      if String.eqb value "" then
        (Error 400 "Missing or invalid 'value' field.", strings)
      else
        let analyzed := analyzeString value now in
        (Created (Some "String added successfully") analyzed,
         Store.set (Analyzed.id analyzed) analyzed strings)
  | _ => (Error 400 "Missing or invalid 'value' field.", strings)
  end.

End ServerFile.

(* ================================================================== *)
(** ** [src/unnamed/part_000] *)
(* ================================================================== *)

Module Part000.
Import JS.

(** [value.trim()], [.toLowerCase()], then the digest: the three lines
    shared by the POST, GET and DELETE handlers. *)
Definition hashOf (value : string) : string :=
  let cleaned := trim value in
  let lower := toLowerCase cleaned in
  SHA256.hex lower.

(** [app.post("/strings")] *)
Definition postStrings (value : JsValue) (now : string) (strings : Store.t)
  : Response * Store.t :=
  match value with
  | JString value =>
      if String.eqb value "" then
        (Error 400 "Missing or invalid 'value' field", strings)
      else
        let cleaned := trim value in
        let lower := toLowerCase cleaned in
        let hash := SHA256.hex lower in
        if Store.has hash strings then
          (Error 409 "String already exists", strings)
        else
          let props :=
            Properties.mk (JS.length cleaned)
              (String.eqb lower (reverse lower))
              (setSize lower)
              (Z.of_nat (List.length (split_ws cleaned)))
              hash
              (frequency cleaned) in
          let result := Analyzed.mk hash cleaned props now in
          (Created None result, Store.set hash result strings)
  | _ => (Error 400 "Missing or invalid 'value' field", strings)
  end.

(** [app.get("/strings/:value")] *)
Definition getString (value : string) (strings : Store.t) : Response :=
  if String.eqb value "" then Error 400 "Invalid string value"
  else
    let hash := hashOf value in
    if negb (Store.has hash strings) then Error 404 "String not found."
    else
      match Store.get hash strings with
      | Some data => Found data
      | None => Error 404 "String not found."
      end.

(** [app.delete("/strings/:value")] *)
Definition deleteString (value : string) (strings : Store.t)
  : Response * Store.t :=
  if String.eqb value "" then (Error 400 "Invalid string value", strings)
  else
    let hash := hashOf value in
    if negb (Store.has hash strings) then
      (Error 404 "String not found.", strings)
    else (NoContent, snd (Store.delete hash strings)).

(** [app.get("/strings")]: [results] through the five parameters; the
    answer echoes [req.query]. *)
Definition listStrings (query : Query.t) (strings : Store.t) : Response :=
  let results := Store.values strings in
  match
    inr results
    >>= (fun results =>
           match Query.is_palindrome query with
           | None => inr results
           | Some is_palindrome =>
               let boolVal := String.eqb is_palindrome "true" in
               inr (filter (fun s =>
                              Bool.eqb (Properties.is_palindrome (Analyzed.properties s))
                                       boolVal) results)
           end)
    >>= (fun results =>
           match Query.min_length query with
           | None => inr results
           | Some min_length =>
               match parseIntNoRadix min_length with
               | None => inl (Error 400 "Invalid min_length")
               | Some min =>
                   inr (filter (fun s =>
                                  Properties.length (Analyzed.properties s) >=? min)
                               results)
               end
           end)
    >>= (fun results =>
           match Query.max_length query with
           | None => inr results
           | Some max_length =>
               match parseIntNoRadix max_length with
               | None => inl (Error 400 "Invalid max_length")
               | Some max =>
                   inr (filter (fun s =>
                                  Properties.length (Analyzed.properties s) <=? max)
                               results)
               end
           end)
    >>= (fun results =>
           match Query.word_count query with
           | None => inr results
           | Some word_count =>
               match parseIntNoRadix word_count with
               | None => inl (Error 400 "Invalid word_count")
               | Some wc =>
                   inr (filter (fun s =>
                                  Properties.word_count (Analyzed.properties s) =? wc)
                               results)
               end
           end)
    >>= (fun results =>
           match Query.contains_character query with
           | None => inr results
           | Some contains_character =>
               if negb (JS.length contains_character =? 1) then
                 inl (Error 400 "contains_character must be a single character")
               else
                 let char := toLowerCase contains_character in
                 inr (filter (fun s => includes (toLowerCase (Analyzed.value s)) char)
                             results)
           end)
  with
  | inl sent => sent
  | inr results => Echoed results (Z.of_nat (List.length results)) query
  end.

(** [/longer than (\d+)/]: one space, then the digits. *)
Definition keywordNumber (keyword : string) (s : string) : option string :=
  match dropPrefix keyword s with
  | None => None
  | Some r =>
      let ds := takeWhile isDigit r in
      if String.eqb ds "" then None else Some ds
  end.

(** The parsing lines of [app.get("/strings/filter-by-natural-language")];
    the second document of [src/server.js] and [part_001] have the same
    lines. *)
Definition parseFilters (lowerQuery : string) : Filters.t :=
  let filters := Filters.empty in
  let filters :=
    if includes lowerQuery "palindrome" then Filters.set_is_palindrome true filters
    else filters in
  let filters :=
    if includes lowerQuery "single word" then Filters.set_word_count 1 filters
    else filters in
  let filters :=
    match search (keywordNumber "longer than ") lowerQuery with
    | Some group1 =>
        match parseIntNoRadix group1 with
        | Some n => Filters.set_min_length n filters
        | None => filters
        end
    | None => filters
    end in
  let filters :=
    match search (keywordNumber "shorter than ") lowerQuery with
    | Some group1 =>
        match parseIntNoRadix group1 with
        | Some n => Filters.set_max_length n filters
        | None => filters
        end
    | None => filters
    end in
  let filters :=
    match search Server.containLetter lowerQuery with
    | Some group1 => Filters.set_contains_character group1 filters
    | None => filters
    end in
  filters.

Definition filterByNaturalLanguage (query : JsValue) (strings : Store.t)
  : Response :=
  match query with
  | JString query =>
      if String.eqb query "" then
        Error 400 "Missing or invalid 'query' parameter"
      else
        let lowerQuery := toLowerCase query in
        let filters := parseFilters lowerQuery in
        let results := Server.executeFiltering filters (Store.values strings) in
        Interpreted results (Z.of_nat (List.length results)) query filters
  | _ => Error 400 "Missing or invalid 'query' parameter"
  end.

End Part000.

(* ================================================================== *)
(** ** [src/unnamed/part_001] *)
(* ================================================================== *)

Module Part001.
Import JS.

Definition analyzeString (value : string) (now : string) : Analyzed.t :=
  let length := JS.length value in
  let lowerValue := toLowerCase value in
  let is_palindrome := String.eqb lowerValue (reverse lowerValue) in
  let unique_characters := setSize lowerValue in
  let word_count := Z.of_nat (List.length (split_ws (trim value))) in
  let sha256_hash := SHA256.hex lowerValue in
  let character_frequency_map := frequency value in
  Analyzed.mk sha256_hash value
    (Properties.mk length is_palindrome unique_characters word_count
       sha256_hash character_frequency_map)
    now.

(** [app.post("/strings")] *)
Definition postStrings (value : JsValue) (now : string) (strings : Store.t)
  : Response * Store.t :=
  match value with
  | JString value =>
      if String.eqb value "" then
        (Error 400 "Missing or invalid 'value' field.", strings)
      else
        let analyzed := analyzeString (trim value) now in
        if Store.has (Analyzed.id analyzed) strings then
          (Error 409 "String already exists", strings)
        else
          (Created (Some "String added successfully") analyzed,
           Store.set (Analyzed.id analyzed) analyzed strings)
  | _ => (Error 400 "Missing or invalid 'value' field.", strings)
  end.

End Part001.

(* ================================================================== *)
(** ** Requests against the running server of [src/server.js] *)
(* ================================================================== *)

Inductive Request :=
| POST_strings (value : JsValue) (now : string)
| GET_string (value : string) (now : string)
| GET_strings (filters : Query.t)
| GET_natural (query : JsValue)
| DELETE_string (value : string) (now : string).

Definition handle (r : Request) (strings : Store.t) : Response * Store.t :=
  match r with
  | POST_strings value now => Server.postStrings value now strings
  | GET_string value now => (Server.getString value now strings, strings)
  | GET_strings filters => (Server.listStrings filters strings, strings)
  | GET_natural query => (Server.filterByNaturalLanguage query strings, strings)
  | DELETE_string value now => Server.deleteString value now strings
  end.

(** The store after a sequence of requests, from [new Map()]. *)
Definition run (rs : list Request) : Store.t :=
  fold_left (fun strings r => snd (handle r strings)) rs [].

(* ================================================================== *)
(** ** The specification's reading of a filter *)
(* ================================================================== *)



(** What the natural-language handler reports as [parsed_filters] for a
    query; the store plays no part in it. *)
Definition translate (query : string) : option Filters.t :=
  parsed_filters_of (Server.filterByNaturalLanguage (JString query) []).


(** White-space-only text. *)
Definition blank (s : string) : bool :=
  forallb JS.isWhiteSpace (list_ascii_of_string s).

(** The number of words of [s]: the maximal runs of characters that are
    not white space, counted where each one starts. *)
Fixpoint countWords (afterSpace : bool) (s : string) : Z :=
  match s with
  | EmptyString => 0
  | String c r =>
      if JS.isWhiteSpace c then countWords true r
      else (if afterSpace then 1 else 0) + countWords false r
  end.

(** The last character of [s] is white space. *)
Fixpoint endsWithSpace (s : string) : bool :=
  match s with
  | EmptyString => false
  | String c EmptyString => JS.isWhiteSpace c
  | String _ r => endsWithSpace r
  end.

(** No character of [s] is white space. *)
Definition noSpace (s : string) : bool :=
  forallb (fun c => negb (JS.isWhiteSpace c)) (list_ascii_of_string s).

Definition startsWithDigit (s : string) : bool :=
  match s with
  | String c _ => JS.isDigit c
  | EmptyString => false
  end.

(** A time stamp and a few analyzed strings for the sample runs. *)
Definition stamp : string := "2025-10-22T10:00:00.000Z".


(** Every entry is the analysis of a trimmed value that is not empty,
    kept under its own id. *)
Definition wellStored (strings : Store.t) : Prop :=
  Forall (fun p =>
            let r := snd p in
            fst p = Analyzed.id r
            /\ r = Server.analyzeString (Analyzed.value r) (Analyzed.created_at r)
            /\ JS.trim (Analyzed.value r) = Analyzed.value r
            /\ Analyzed.value r <> "")
         strings.

Definition isError (r : Response) : bool :=
  match r with
  | Error _ _ => true
  | _ => false
  end.







Definition whenGiven {A : Type} (p : A -> bool) (o : option A) : bool :=
  match o with
  | Some x => p x
  | None => true
  end.


(** One of [0-9a-f]. *)
Definition isLowerHex (c : ascii) : bool :=
  let n := JS.code c in
  ((48 <=? n) && (n <=? 57)) || ((97 <=? n) && (n <=? 102)).

(** What [GET /strings] of [part_000] lets through: any numeral that
    [parseInt] reads, and a text of exactly one character. *)
Definition parses (raw : string) : bool :=
  match JS.parseIntNoRadix raw with
  | Some _ => true
  | None => false
  end.

Definition oneChar (raw : string) : bool := JS.length raw =? 1.

Definition validQuery000 (q : Query.t) : bool :=
  whenGiven parses (Query.min_length q)
  && whenGiven parses (Query.max_length q)
  && whenGiven parses (Query.word_count q)
  && whenGiven oneChar (Query.contains_character q).

(* ================================================================== *)
(** ** Facts about the string operations *)
(* ================================================================== *)

Section StringFacts.
Import JS.

Lemma dropPrefix_Some (p s r : string) :
  dropPrefix p s = Some r <-> s = p ++ r.
Proof.
  revert s; induction p as [|a p IH]; intros s; simpl.
  - split; congruence.
  - destruct s as [|b s]; [split; discriminate|].
    destruct (Ascii.eqb_spec a b) as [->|ne].
    + rewrite IH. split; congruence.
    + split; [discriminate | intros [=]; congruence].
Qed.

Lemma search_Some {A : Type} (m : string -> option A) (s : string) (x : A) :
  search m s = Some x -> exists pre suf, s = pre ++ suf /\ m suf = Some x.
Proof.
  induction s as [|c s IH]; simpl.
  - destruct (m "") eqn:E; [intros [= ->]|discriminate].
    now exists "", "".
  - destruct (m (String c s)) eqn:E.
    + intros [= ->]. now exists "", (String c s).
    + intros H. destruct (IH H) as (pre & suf & -> & Hm).
      now exists (String c pre), suf.
Qed.

Lemma search_None {A : Type} (m : string -> option A) (pre suf : string) :
  search m (pre ++ suf) = None -> m suf = None.
Proof.
  induction pre as [|c pre IH]; simpl.
  - destruct suf; simpl; destruct (m _); congruence.
  - destruct (m (String c (pre ++ suf))); [discriminate|]. exact IH.
Qed.

Lemma includes_true (s needle : string) :
  includes s needle = true <-> exists pre post, s = pre ++ needle ++ post.
Proof.
  unfold includes. split.
  - destruct (search (dropPrefix needle) s) eqn:E; [|discriminate].
    intros _. apply search_Some in E. destruct E as (pre & suf & -> & H).
    apply dropPrefix_Some in H. subst suf. now exists pre, s0.
  - intros (pre & post & ->).
    destruct (search (dropPrefix needle) (pre ++ needle ++ post)) eqn:E; [reflexivity|].
    apply search_None in E.
    assert (H : dropPrefix needle (needle ++ post) = Some post)
      by now apply dropPrefix_Some.
    congruence.
Qed.

Lemma append_assoc (a b c : string) : (a ++ b) ++ c = a ++ (b ++ c).
Proof. induction a as [|x a IH]; simpl; [reflexivity | now rewrite IH]. Qed.

Lemma includes_empty (s : string) : includes s "" = true.
Proof. apply includes_true. now exists "", s. Qed.

Lemma blank_app (a b : string) : blank (a ++ b) = blank a && blank b.
Proof.
  unfold blank. induction a as [|c a IH]; simpl; [reflexivity|].
  now rewrite IH, andb_assoc.
Qed.

Lemma trimEnd_cons (c : ascii) (r : string) :
  trimEnd (String c r) =
  if blank (String c r) then "" else String c (trimEnd r).
Proof.
  assert (E : forall s, trimEnd s = "" <-> blank s = true).
  { induction s as [|d s IH]; simpl; [unfold blank; simpl; tauto|].
    unfold blank in *; simpl.
    destruct (trimEnd s) eqn:T.
    - destruct (isWhiteSpace d); simpl.
      + split; [intros _; now apply IH | reflexivity].
      + split; discriminate.
    - split; [discriminate|]. rewrite andb_true_iff. intros [_ H].
      apply IH in H. discriminate. }
  simpl. destruct (trimEnd r) eqn:T.
  - assert (B : blank r = true) by now apply E.
    unfold blank in *; simpl. rewrite B, andb_true_r.
    now destruct (isWhiteSpace c).
  - assert (B : blank r = false).
    { destruct (blank r) eqn:B; [|reflexivity]. apply E in B. congruence. }
    unfold blank in *; simpl. now rewrite B, andb_false_r.
Qed.

Lemma trimEnd_blank (s : string) : trimEnd s = "" <-> blank s = true.
Proof.
  destruct s as [|c r]; [unfold blank; simpl; tauto|].
  rewrite trimEnd_cons. destruct (blank (String c r)); split; congruence.
Qed.

Lemma blank_trimStart (s : string) : blank (trimStart s) = blank s.
Proof.
  unfold blank, trimStart. induction s as [|c r IH]; simpl; [reflexivity|].
  destruct (isWhiteSpace c) eqn:W; simpl; [exact IH | now rewrite W].
Qed.

Lemma trim_blank (s : string) : trim s = "" <-> blank s = true.
Proof. unfold trim. now rewrite trimEnd_blank, blank_trimStart. Qed.

Lemma trim_eqb_blank (s : string) : String.eqb (trim s) "" = blank s.
Proof.
  destruct (String.eqb_spec (trim s) "") as [E|E].
  - symmetry. now apply trim_blank.
  - destruct (blank s) eqn:B; [|reflexivity]. apply trim_blank in B. contradiction.
Qed.

Lemma isWhiteSpace_lowerChar (c : ascii) :
  isWhiteSpace (lowerChar c) = isWhiteSpace c.
Proof. destruct c as [[] [] [] [] [] [] [] []]; reflexivity. Qed.

Lemma lowerChar_idem (c : ascii) : lowerChar (lowerChar c) = lowerChar c.
Proof. destruct c as [[] [] [] [] [] [] [] []]; reflexivity. Qed.


Lemma blank_toLowerCase (s : string) : blank (toLowerCase s) = blank s.
Proof.
  unfold blank. induction s as [|c s IH]; simpl; [reflexivity|].
  now rewrite isWhiteSpace_lowerChar, IH.
Qed.

Lemma includes_not_blank (s needle : string) :
  includes s needle = true -> blank needle = false -> blank s = false.
Proof.
  intros H N. apply includes_true in H. destruct H as (pre & post & ->).
  now rewrite !blank_app, N, andb_false_r.
Qed.

End StringFacts.

(* ================================================================== *)
(** ** Counting words *)
(* ================================================================== *)

Section WordCount.
Import JS.

Lemma countWords_blank (s : string) (b : bool) :
  blank s = true -> countWords b s = 0.
Proof.
  unfold blank. revert b. induction s as [|c s IH]; intros b; simpl; [reflexivity|].
  destruct (isWhiteSpace c); simpl; [apply IH | discriminate].
Qed.

Lemma countWords_trimStart (s : string) :
  countWords true (trimStart s) = countWords true s.
Proof.
  unfold trimStart. induction s as [|c s IH]; simpl; [reflexivity|].
  destruct (isWhiteSpace c) eqn:W; [exact IH | simpl; now rewrite W].
Qed.

Lemma countWords_trimEnd (s : string) (b : bool) :
  countWords b (trimEnd s) = countWords b s.
Proof.
  revert b. induction s as [|c s IH]; intros b; [reflexivity|].
  rewrite trimEnd_cons. destruct (blank (String c s)) eqn:B.
  - symmetry. now apply countWords_blank.
  - simpl. now rewrite !IH.
Qed.

Lemma endsWithSpace_trimEnd (s : string) : endsWithSpace (trimEnd s) = false.
Proof.
  induction s as [|c s IH]; [reflexivity|].
  rewrite trimEnd_cons. destruct (blank (String c s)) eqn:B; [reflexivity|].
  simpl. destruct (trimEnd s) eqn:T; [|exact IH].
  apply trimEnd_blank in T. unfold blank in *; simpl in B.
  rewrite T, andb_true_r in B. exact B.
Qed.

Lemma splitRuns_length (s : string) (inRun : bool) (piece : string) :
  Z.of_nat (List.length (splitRuns inRun piece s)) =
  (if inRun then 0 else 1) + countWords inRun s
  + (if endsWithSpace s then 1 else 0)
  + (if inRun then match s with EmptyString => 1 | _ => 0 end else 0).
Proof.
  revert inRun piece. induction s as [|c s IH]; intros inRun piece.
  - simpl. destruct inRun; reflexivity.
  - cbn [splitRuns countWords].
    assert (E : (if endsWithSpace (String c s) then 1 else 0) =
                match s with
                | EmptyString => if isWhiteSpace c then 1 else 0
                | _ => if endsWithSpace s then 1 else 0
                end) by (destruct s; reflexivity).
    rewrite E. clear E.
    destruct (isWhiteSpace c) eqn:W.
    + destruct inRun.
      * rewrite IH. destruct s; cbn [countWords endsWithSpace]; lia.
      * cbn [List.length]. rewrite Nat2Z.inj_succ, IH.
        destruct s; cbn [countWords endsWithSpace]; lia.
    + rewrite IH. destruct inRun; destruct s; cbn [countWords endsWithSpace]; lia.
Qed.

Lemma word_count_countWords (value : string) :
  (if String.eqb (trim value) "" then 0
   else Z.of_nat (List.length (split_ws (trim value))))
  = countWords true value.
Proof.
  rewrite trim_eqb_blank. destruct (blank value) eqn:B.
  - now rewrite countWords_blank.
  - unfold split_ws. rewrite splitRuns_length.
    unfold trim. rewrite endsWithSpace_trimEnd, countWords_trimEnd.
    rewrite <- countWords_trimStart.
    rewrite <- blank_trimStart in B.
    destruct (trimStart value) as [|c r] eqn:T; [discriminate|].
    assert (W : isWhiteSpace c = false).
    { unfold trimStart in T. clear B.
      induction value as [|d v IH]; simpl in T; [discriminate|].
      destruct (isWhiteSpace d) eqn:D; [now apply IH|]. congruence. }
    simpl. rewrite W. lia.
Qed.

Lemma noSpace_snoc (s : string) (c : ascii) :
  noSpace s = true -> isWhiteSpace c = false ->
  noSpace (s ++ String c "") = true.
Proof.
  unfold noSpace. induction s as [|d s IH]; simpl; intros H W.
  - now rewrite W.
  - apply andb_true_iff in H. destruct H as [H1 H2]. rewrite H1. now apply IH.
Qed.

Lemma snoc_not_empty (s : string) (c : ascii) : s ++ String c "" <> "".
Proof. destruct s; discriminate. Qed.

(** The pieces of a text that neither starts nor ends with white space
    are words: not empty and free of white space. *)
Lemma splitRuns_words (s : string) (inRun : bool) (piece : string) :
  noSpace piece = true ->
  endsWithSpace s = false ->
  (if inRun then s <> "" else piece <> "") ->
  Forall (fun x => x <> "" /\ noSpace x = true) (splitRuns inRun piece s).
Proof.
  revert inRun piece. induction s as [|c s IH]; intros inRun piece P E N.
  - destruct inRun; [contradiction|]. simpl. now repeat constructor.
  - assert (E' : endsWithSpace s = false /\ (s = "" -> isWhiteSpace c = false)).
    { destruct s; [split; [reflexivity | intros _; exact E] |].
      split; [exact E | discriminate]. }
    destruct E' as [E1 E2].
    cbn [splitRuns]. destruct (isWhiteSpace c) eqn:W.
    + assert (S : s <> "") by (intros ->; specialize (E2 eq_refl); discriminate).
      destruct inRun.
      * apply IH; [reflexivity | exact E1 | exact S].
      * constructor; [now split|]. apply IH; [reflexivity | exact E1 | exact S].
    + apply IH; [now apply noSpace_snoc | exact E1 | apply snoc_not_empty].
Qed.

Lemma split_ws_trim_words (value : string) :
  blank value = false ->
  Forall (fun x => x <> "" /\ noSpace x = true) (split_ws (trim value)).
Proof.
  intros B. unfold split_ws.
  assert (T : trim value <> "") by (intros T; apply trim_blank in T; congruence).
  unfold trim in *. destruct (trimStart value) as [|c r] eqn:S; [contradiction|].
  assert (W : isWhiteSpace c = false).
  { unfold trimStart in S. clear B T.
    induction value as [|d v IH]; simpl in S; [discriminate|].
    destruct (isWhiteSpace d) eqn:D; [now apply IH|]. congruence. }
  rewrite trimEnd_cons in *. destruct (blank (String c r)); [contradiction|].
  cbn [splitRuns]. rewrite W. apply splitRuns_words.
  - unfold noSpace. simpl. now rewrite W.
  - apply endsWithSpace_trimEnd.
  - discriminate.
Qed.

End WordCount.

(* ================================================================== *)
(** ** The store *)
(* ================================================================== *)

Section StoreFacts.

Lemma has_In (k : string) (m : Store.t) :
  Store.has k m = true <-> In k (Store.keys m).
Proof.
  unfold Store.has, Store.keys. rewrite existsb_exists, in_map_iff.
  split; intros (p & H1 & H2).
  - exists p. split; [now apply String.eqb_eq | exact H1].
  - exists p. split; [exact H2 | now apply String.eqb_eq].
Qed.

Lemma has_false (k : string) (m : Store.t) :
  Store.has k m = false <-> ~ In k (Store.keys m).
Proof.
  rewrite <- has_In. destruct (Store.has k m); split; congruence.
Qed.

Lemma set_absent (k : string) (v : Analyzed.t) (m : Store.t) :
  Store.has k m = false -> Store.set k v m = (m ++ [(k, v)])%list.
Proof. unfold Store.set. now intros ->. Qed.

Lemma keys_set_present (k : string) (v : Analyzed.t) (m : Store.t) :
  Store.keys (map (fun p => if String.eqb (fst p) k then (k, v) else p) m)
  = Store.keys m.
Proof.
  unfold Store.keys. rewrite map_map. apply map_ext. intros [a b]; simpl.
  destruct (String.eqb_spec a k); simpl; congruence.
Qed.

Lemma NoDup_set (k : string) (v : Analyzed.t) (m : Store.t) :
  NoDup (Store.keys m) -> NoDup (Store.keys (Store.set k v m)).
Proof.
  intros H. unfold Store.set. destruct (Store.has k m) eqn:E.
  - now rewrite keys_set_present.
  - unfold Store.keys. rewrite map_app. simpl.
    apply NoDup_app; [exact H | repeat constructor; intros [] | ].
    intros a Ha [<-|[]]. now apply has_false in E.
Qed.

Lemma NoDup_delete (k : string) (m : Store.t) :
  NoDup (Store.keys m) -> NoDup (Store.keys (snd (Store.delete k m))).
Proof.
  unfold Store.delete, Store.keys; simpl.
  induction m as [|[a b] m IH]; simpl; intros H; [constructor|].
  inversion H as [|? ? Hn Hd]; subst.
  destruct (negb (String.eqb a k)); simpl; [|now apply IH].
  constructor; [|now apply IH].
  intros Hin. apply Hn. apply in_map_iff in Hin. destruct Hin as (p & <- & Hp).
  apply filter_In in Hp. apply in_map. tauto.
Qed.

Lemma get_set_absent (k : string) (v : Analyzed.t) (m : Store.t) :
  Store.has k m = false -> Store.get k (Store.set k v m) = Some v.
Proof.
  intros H. rewrite set_absent by exact H. unfold Store.get, Store.has in *.
  induction m as [|[a b] m IH]; simpl in *.
  - now rewrite String.eqb_refl.
  - apply orb_false_iff in H. destruct H as [H1 H2]. rewrite H1. now apply IH.
Qed.

Lemma handle_NoDup (r : Request) (strings : Store.t) :
  NoDup (Store.keys strings) -> NoDup (Store.keys (snd (handle r strings))).
Proof.
  intros H. destruct r; simpl; try exact H.
  - unfold Server.postStrings. destruct value; simpl; try exact H.
    destruct (String.eqb (JS.trim s) ""); simpl; [exact H|].
    destruct (Store.has _ strings); simpl; [exact H|].
    now apply NoDup_set.
  - unfold Server.deleteString.
    pose proof (NoDup_delete (Analyzed.id (Server.analyzeString value now)) strings H) as D.
    destruct (Store.delete _ strings) as [[] m']; exact D.
Qed.

Lemma run_NoDup (rs : list Request) : NoDup (Store.keys (run rs)).
Proof.
  unfold run.
  assert (G : forall m, NoDup (Store.keys m) ->
    NoDup (Store.keys (fold_left (fun strings r => snd (handle r strings)) rs m))).
  { induction rs as [|r rs IH]; intros m Hm; simpl; [exact Hm|].
    apply IH. now apply handle_NoDup. }
  apply G. constructor.
Qed.

End StoreFacts.

(* ================================================================== *)
(** ** Filters applied in sequence *)
(* ================================================================== *)

Section FilterFacts.
Import JS.

Lemma filter_filter {A : Type} (p q : A -> bool) (l : list A) :
  filter p (filter q l) = filter (fun x => q x && p x) l.
Proof.
  induction l as [|a l IH]; simpl; [reflexivity|].
  destruct (q a); simpl; [destruct (p a)|]; now rewrite IH.
Qed.

Lemma filter_all {A : Type} (l : list A) : filter (fun _ => true) l = l.
Proof. induction l as [|a l IH]; simpl; [reflexivity | now rewrite IH]. Qed.

Lemma filter_opt {A B : Type} (o : option B) (p : B -> A -> bool) (l : list A) :
  match o with Some x => filter (p x) l | None => l end
  = filter (fun s => match o with Some x => p x s | None => true end) l.
Proof. destruct o; [reflexivity | now rewrite filter_all]. Qed.

(** The six steps of section 6 of the natural-language handler select
    the conjunction of their tests. *)
Lemma executeFiltering_conj (f : Filters.t) (rs : list Analyzed.t) :
  Server.executeFiltering f rs =
  filter (fun s =>
            let p := Analyzed.properties s in
            match Filters.is_palindrome f with
            | Some b => Bool.eqb (Properties.is_palindrome p) b | None => true end
            && match Filters.word_count f with
               | Some n => Properties.word_count p =? n | None => true end
            && match Filters.min_length f with
               | Some n => Properties.length p >=? n | None => true end
            && match Filters.max_length f with
               | Some n => Properties.length p <=? n | None => true end
            && match Filters.contains_character f with
               | Some c => includes (toLowerCase (Analyzed.value s)) (toLowerCase c)
               | None => true end
            && match Filters.value_contains f with
               | Some v => includes (toLowerCase (Analyzed.value s)) v
               | None => true end) rs.
Proof.
  unfold Server.executeFiltering. cbv zeta.
  rewrite (filter_opt (Filters.is_palindrome f)
             (fun b s => Bool.eqb (Properties.is_palindrome (Analyzed.properties s)) b)).
  rewrite (filter_opt (Filters.word_count f)
             (fun n s => Properties.word_count (Analyzed.properties s) =? n)).
  rewrite (filter_opt (Filters.min_length f)
             (fun n s => Properties.length (Analyzed.properties s) >=? n)).
  rewrite (filter_opt (Filters.max_length f)
             (fun n s => Properties.length (Analyzed.properties s) <=? n)).
  rewrite (filter_opt (Filters.contains_character f)
             (fun c s => includes (toLowerCase (Analyzed.value s)) (toLowerCase c))).
  rewrite (filter_opt (Filters.value_contains f)
             (fun v s => includes (toLowerCase (Analyzed.value s)) v)).
  rewrite !filter_filter. apply filter_ext. intros s.
  now rewrite !andb_assoc.
Qed.



End FilterFacts.

(* ================================================================== *)
(** ** The natural-language handler *)
(* ================================================================== *)

Section TranslatorFacts.
Import JS.



Lemma isDigit_plain (c : ascii) :
  isDigit c = true ->
  isWhiteSpace c = false /\ Ascii.eqb c "-" = false /\ Ascii.eqb c "+" = false
  /\ 0 <= code c - 48.
Proof.
  destruct c as [[] [] [] [] [] [] [] []]; vm_compute;
    try discriminate; intros _; repeat split; discriminate.
Qed.

Lemma digits_Some (s : string) (a : Z) :
  0 <= a -> exists n, digits (Some a) s = Some n /\ 0 <= n.
Proof.
  revert a. induction s as [|c s IH]; intros a Ha; cbn [digits].
  - now exists a.
  - destruct (isDigit c) eqn:D; [|now exists a].
    apply IH. apply isDigit_plain in D. destruct D as (_ & _ & _ & D). lia.
Qed.

(** The digits captured by [(\d+)] always parse: [parseInt] is never
    [NaN] on them. *)
Lemma parseInt_takeWhile (s : string) :
  takeWhile isDigit s <> "" ->
  exists n, parseInt (takeWhile isDigit s) = Some n /\ 0 <= n.
Proof.
  destruct s as [|c s]; simpl; [congruence|].
  destruct (isDigit c) eqn:D; [|congruence]. intros _.
  destruct (isDigit_plain c D) as (W & M & P & G).
  unfold parseInt, trimStart. simpl. rewrite W, M, P. simpl. rewrite D.
  apply digits_Some. lia.
Qed.

Lemma keywordNumber_parses (keyword s group1 : string) :
  Server.keywordNumber keyword s = Some group1 ->
  exists n, parseInt group1 = Some n /\ 0 <= n.
Proof.
  unfold Server.keywordNumber. destruct (dropPrefix keyword s) as [r|]; [|discriminate].
  destruct (String.eqb_spec (takeWhile isDigit (skipWhile isWhiteSpace r)) "") as [E|E];
    [discriminate|].
  intros [= <-]. now apply parseInt_takeWhile.
Qed.




Lemma charMatch_not_blank (s group1 : string) :
  Server.charMatch s = Some group1 -> blank s = false.
Proof.
  unfold Server.charMatch. intros H. apply search_Some in H.
  destruct H as (pre & suf & -> & H).
  unfold Server.containLetter in H.
  destruct (dropPrefix "contain" suf) as [r|] eqn:P; [|discriminate].
  apply dropPrefix_Some in P. subst suf.
  now rewrite !blank_app, andb_false_r.
Qed.

Lemma dropPrefix_app (p r : string) : dropPrefix p (p ++ r) = Some r.
Proof. now apply dropPrefix_Some. Qed.

Lemma skipWhile_app (p : ascii -> bool) (a b : string) :
  forallb p (list_ascii_of_string a) = true ->
  skipWhile p (a ++ b) = skipWhile p b.
Proof.
  induction a as [|c a IH]; simpl; [reflexivity|].
  intros H. apply andb_true_iff in H. destruct H as [H1 H2]. rewrite H1. now apply IH.
Qed.

Lemma takeWhile_app (p : ascii -> bool) (a b : string) :
  forallb p (list_ascii_of_string a) = true ->
  takeWhile p (a ++ b) = a ++ takeWhile p b.
Proof.
  induction a as [|c a IH]; simpl; [reflexivity|].
  intros H. apply andb_true_iff in H. destruct H as [H1 H2]. rewrite H1.
  now rewrite IH.
Qed.

(** At a position where the keyword, some white space and a numeral
    stand, the pattern matches and captures the whole numeral. *)
Lemma keywordNumber_complete (keyword ws ds rest : string) :
  blank ws = true ->
  ds <> "" ->
  forallb isDigit (list_ascii_of_string ds) = true ->
  startsWithDigit rest = false ->
  Server.keywordNumber keyword (keyword ++ ws ++ ds ++ rest) = Some ds.
Proof.
  intros B N D R. unfold Server.keywordNumber. rewrite dropPrefix_app.
  rewrite (skipWhile_app isWhiteSpace ws) by exact B.
  assert (S : skipWhile isWhiteSpace (ds ++ rest) = ds ++ rest).
  { destruct ds as [|c ds]; [contradiction|]. simpl in *.
    apply andb_true_iff in D. destruct D as [D _].
    apply isDigit_plain in D. destruct D as [W _]. now rewrite W. }
  rewrite S, (takeWhile_app isDigit ds) by exact D.
  assert (T : takeWhile isDigit rest = "").
  { destruct rest as [|c rest]; [reflexivity|]. simpl in *. now rewrite R. }
  rewrite T.
  assert (A : ds ++ "" = ds).
  { clear. induction ds as [|c ds IH]; simpl; [reflexivity | now rewrite IH]. }
  rewrite A. destruct (String.eqb_spec ds ""); [contradiction | reflexivity].
Qed.

(** [search] answers with the first position at which the matcher
    succeeds. *)
Lemma search_leftmost {A : Type} (m : string -> option A)
      (pre suf : string) (x : A) :
  (forall p1 p2, pre = p1 ++ p2 -> p2 <> "" -> m (p2 ++ suf) = None) ->
  m suf = Some x ->
  search m (pre ++ suf) = Some x.
Proof.
  induction pre as [|c pre IH]; intros E M.
  - simpl. destruct suf; simpl; now rewrite M.
  - cbn [append search].
    assert (H0 : m (String c pre ++ suf) = None)
      by (apply (E "" (String c pre)); [reflexivity | discriminate]).
    simpl in H0. rewrite H0.
    apply IH; [|exact M].
    intros p1 p2 -> N. apply (E (String c p1) p2); [reflexivity | exact N].
Qed.
(** A query that is not white space only goes through sections 1 to 6. *)
Lemma natural_not_blank (query : string) (strings : Store.t) :
  blank query = false ->
  Server.filterByNaturalLanguage (JString query) strings =
  let filters := Server.parseFilters (toLowerCase query) in
  let results := Server.executeFiltering filters (Store.values strings) in
  Interpreted results (Z.of_nat (List.length results)) query filters.
Proof.
  intros B. unfold Server.filterByNaturalLanguage.
  destruct (String.eqb_spec query "") as [->|_]; [discriminate|].
  now rewrite trim_eqb_blank, blank_toLowerCase, B.
Qed.


Lemma translate_not_blank (query : string) :
  blank query = false ->
  translate query = Some (Server.parseFilters (toLowerCase query)).
Proof. intros B. unfold translate. now rewrite natural_not_blank. Qed.

(** The filters reported do not depend on what is stored. *)
Lemma parsed_filters_any_store (query : string) (strings : Store.t) :
  parsed_filters_of (Server.filterByNaturalLanguage (JString query) strings)
  = translate query.
Proof.
  unfold translate, Server.filterByNaturalLanguage.
  destruct (String.eqb query ""); [reflexivity|].
  destruct (String.eqb (trim (toLowerCase query)) ""); reflexivity.
Qed.

Lemma parseFilters_is_palindrome (lq : string) :
  Filters.is_palindrome (Server.parseFilters lq) =
  if Server.isNegativePalindrome lq then Some false
  else if includes lq "palindrome" then Some true else None.
Proof.
  unfold Server.parseFilters, Server.isPositivePalindrome.
  destruct (Server.isNegativePalindrome lq), (includes lq "palindrome"),
    (includes lq "single word"), (includes lq "first vowel");
    destruct (Server.minLengthMatch lq) as [a|]; try destruct (parseInt a);
    destruct (Server.maxLengthMatch lq) as [b|]; try destruct (parseInt b);
    destruct (Server.charMatch lq); reflexivity.
Qed.

Lemma parseFilters_min_length (lq : string) :
  Filters.min_length (Server.parseFilters lq) =
  match Server.minLengthMatch lq with
  | Some group1 => option_map (fun n => n + 1) (parseInt group1)
  | None => None
  end.
Proof.
  unfold Server.parseFilters, Server.isPositivePalindrome.
  destruct (Server.isNegativePalindrome lq), (includes lq "palindrome"),
    (includes lq "single word"), (includes lq "first vowel");
    destruct (Server.minLengthMatch lq) as [a|]; try destruct (parseInt a);
    destruct (Server.maxLengthMatch lq) as [b|]; try destruct (parseInt b);
    destruct (Server.charMatch lq); reflexivity.
Qed.

Lemma parseFilters_max_length (lq : string) :
  Filters.max_length (Server.parseFilters lq) =
  match Server.maxLengthMatch lq with
  | Some group1 => option_map (fun n => n - 1) (parseInt group1)
  | None => None
  end.
Proof.
  unfold Server.parseFilters, Server.isPositivePalindrome.
  destruct (Server.isNegativePalindrome lq), (includes lq "palindrome"),
    (includes lq "single word"), (includes lq "first vowel");
    destruct (Server.minLengthMatch lq) as [a|]; try destruct (parseInt a);
    destruct (Server.maxLengthMatch lq) as [b|]; try destruct (parseInt b);
    destruct (Server.charMatch lq); reflexivity.
Qed.

Lemma parseFilters_contains_character (lq : string) :
  Filters.contains_character (Server.parseFilters lq) =
  if includes lq "first vowel" then Some "a" else Server.charMatch lq.
Proof.
  unfold Server.parseFilters, Server.isPositivePalindrome.
  destruct (Server.isNegativePalindrome lq), (includes lq "palindrome"),
    (includes lq "single word"), (includes lq "first vowel");
    destruct (Server.minLengthMatch lq) as [a|]; try destruct (parseInt a);
    destruct (Server.maxLengthMatch lq) as [b|]; try destruct (parseInt b);
    destruct (Server.charMatch lq); reflexivity.
Qed.



(** When none of the rules fires, the only key is [value_contains]. *)
Lemma parseFilters_fallback (lq : string) :
  includes lq "palindrome" = false ->
  includes lq "single word" = false ->
  Server.minLengthMatch lq = None ->
  Server.maxLengthMatch lq = None ->
  includes lq "first vowel" = false ->
  Server.charMatch lq = None ->
  Server.parseFilters lq = Filters.set_value_contains lq Filters.empty.
Proof.
  intros P W Mn Mx V C.
  unfold Server.parseFilters, Server.isPositivePalindrome.
  assert (N : Server.isNegativePalindrome lq = false).
  { unfold Server.isNegativePalindrome.
    destruct (includes lq "non-palindrome") eqn:E1.
    - apply includes_true in E1. destruct E1 as (pre & post & ->).
      assert (H : includes (pre ++ "non-palindrome" ++ post) "palindrome" = true).
      { apply includes_true. exists (pre ++ "non-"), post.
        rewrite !append_assoc. reflexivity. }
      congruence.
    - destruct (includes lq "not palindrome") eqn:E2; [|reflexivity].
      apply includes_true in E2. destruct E2 as (pre & post & ->).
      assert (H : includes (pre ++ "not palindrome" ++ post) "palindrome" = true).
      { apply includes_true. exists (pre ++ "not "), post.
        rewrite !append_assoc. reflexivity. }
      congruence. }
  rewrite N, P, W, Mn, Mx, V, C. reflexivity.
Qed.

End TranslatorFacts.

(* ================================================================== *)
(** ** Sample runs *)
(* ================================================================== *)

Example sha256_abc :
  SHA256.hex "abc"
  = "ba7816bf8f01cfea414140de5dae2223b00361a396177a9cb410ff61f20015ad".
Proof. vm_compute. reflexivity. Qed.

Example sha256_empty :
  SHA256.hex ""
  = "e3b0c44298fc1c149afbf4c8996fb92427ae41e4649b934ca495991b7852b855".
Proof. vm_compute. reflexivity. Qed.

Example sha256_two_blocks :
  SHA256.hex "abcdbcdecdefdefgefghfghighijhijkijkljklmklmnlmnomnopnopq"
  = "248d6a61d20638b8e5c026930c3e6039a33ce45964ff2167f6ecedd419db06c1".
Proof. vm_compute. reflexivity. Qed.

Example analyze_racecar :
  let p := Analyzed.properties (Server.analyzeString "Racecar" stamp) in
  Properties.is_palindrome p = true /\ Properties.length p = 7
  /\ Properties.unique_characters p = 5.
Proof. vm_compute. repeat split. Qed.

Example analyze_hello :
  Properties.is_palindrome
    (Analyzed.properties (Server.analyzeString "hello" stamp)) = false.
Proof. reflexivity. Qed.

Example translate_non_palindrome :
  translate "non-palindrome strings"
  = Some (Filters.set_is_palindrome false Filters.empty).
Proof. vm_compute. reflexivity. Qed.

(** "palindromic" does not contain "palindrome". *)
Example translate_single_word_palindromic :
  translate "all single word palindromic strings"
  = Some (Filters.set_word_count 1 Filters.empty).
Proof. vm_compute. reflexivity. Qed.

Example translate_shorter_than_0 :
  translate "strings shorter than 0"
  = Some (Filters.set_max_length (-1) Filters.empty).
Proof. vm_compute. reflexivity. Qed.

(* ================================================================== *)
(** ** C1: the record id *)
(* ================================================================== *)




(* ================================================================== *)
(** ** C2: insert if absent *)
(* ================================================================== *)

Lemma has_set (k : string) (v : Analyzed.t) (m : Store.t) :
  Store.has k (Store.set k v m) = true.
Proof.
  apply has_In. unfold Store.set. destruct (Store.has k m) eqn:E.
  - rewrite keys_set_present. now apply has_In.
  - unfold Store.keys. rewrite map_app. apply in_or_app. right. now left.
Qed.

(** The same value submitted twice: the second attempt is a conflict. *)
Lemma post_twice_conflict (value now now' : string) (strings : Store.t) :
  JS.trim value <> "" ->
  fst (Server.postStrings (JString value) now'
         (snd (Server.postStrings (JString value) now strings)))
  = Error 409 "String already exists in the system.".
Proof.
  intros N. unfold Server.postStrings.
  destruct (String.eqb_spec (JS.trim value) "") as [E|_]; [contradiction|].
  assert (I : forall t, Analyzed.id (Server.analyzeString (JS.trim value) t)
                        = SHA256.hex (JS.trim value)) by reflexivity.
  rewrite !I.
  destruct (Store.has (SHA256.hex (JS.trim value)) strings) eqn:H; cbn [snd].
  - now rewrite H.
  - now rewrite has_set.
Qed.

(** C2.  Submitting a value whose id is already in the store answers 409
    and leaves the store as it was; when the id is absent the record is
    appended and can be fetched under its id.  Either way no id occurs
    twice, and no sequence of requests from the empty store ever makes
    one occur twice. *)
Theorem post_conflict_or_insert (value now : string) (strings : Store.t) :
  let analyzed := Server.analyzeString (JS.trim value) now in
  JS.trim value <> "" ->
  NoDup (Store.keys strings) ->
  (Store.has (Analyzed.id analyzed) strings = true ->
   Server.postStrings (JString value) now strings
   = (Error 409 "String already exists in the system.", strings))
  /\ (Store.has (Analyzed.id analyzed) strings = false ->
      Server.postStrings (JString value) now strings
      = (Created None analyzed, (strings ++ [(Analyzed.id analyzed, analyzed)])%list)
      /\ Store.get (Analyzed.id analyzed)
           (snd (Server.postStrings (JString value) now strings))
         = Some analyzed)
  /\ NoDup (Store.keys (snd (Server.postStrings (JString value) now strings)))
  /\ (forall requests, NoDup (Store.keys (run requests))).
Proof.
  intros analyzed N D. unfold Server.postStrings.
  destruct (String.eqb_spec (JS.trim value) "") as [E|_]; [contradiction|].
  fold analyzed. split; [|split; [|split]].
  - now intros ->.
  - intros H. rewrite H. split; [now rewrite set_absent|].
    cbn [snd]. now apply get_set_absent.
  - destruct (Store.has (Analyzed.id analyzed) strings); cbn [snd];
      [exact D | now apply NoDup_set].
  - apply run_NoDup.
Qed.

Lemma post_conflict_or_insert_witness :
  Server.postStrings (JString "racecar") stamp
    (run [POST_strings (JString " racecar ") stamp])
  = (Error 409 "String already exists in the system.",
     run [POST_strings (JString " racecar ") stamp]).
Proof.
  apply (post_conflict_or_insert "racecar" stamp
           (run [POST_strings (JString " racecar ") stamp])).
  - vm_compute. discriminate.
  - vm_compute. constructor; [intros [] | constructor].
  - vm_compute. reflexivity.
Defined.

(** The file-backed variant of [src/server.js] has no look-up: a second
    submission answers 201 and replaces the record under its id. *)
Lemma file_variant_overwrites :
  let strings := snd (ServerFile.postStrings (JString "racecar") stamp []) in
  ServerFile.postStrings (JString "racecar") "2025-10-23T10:00:00.000Z" strings
  = (Created (Some "String added successfully")
       (ServerFile.analyzeString "racecar" "2025-10-23T10:00:00.000Z"),
     [(SHA256.hex "racecar",
       ServerFile.analyzeString "racecar" "2025-10-23T10:00:00.000Z")]).
Proof. vm_compute. reflexivity. Qed.

(* ================================================================== *)
(** ** C3: the filter engine *)
(* ================================================================== *)




(* ================================================================== *)
(** ** C4: malformed parameters of [GET /strings] *)
(* ================================================================== *)

(** A [contains_character] of two characters or more is refused. *)
Lemma long_contains_character_rejected (q : Query.t) (strings : Store.t) (c : string) :
  Query.contains_character q = Some c -> JS.length c > 1 ->
  exists message, Server.listStrings q strings = Error 400 message.
Proof.
  intros Hc L. unfold Server.listStrings.
  destruct q as [qp qmin qmax qw qc]. cbn in Hc. subst qc.
  unfold Server.by_is_palindrome, Server.by_min_length, Server.by_max_length,
    Server.by_word_count, Server.by_contains_character, andThen.
  cbn [Query.is_palindrome Query.min_length Query.max_length Query.word_count
       Query.contains_character].
  assert (G : (JS.length c >? 1) = true) by (apply Z.gtb_lt; lia). rewrite G.
  destruct qp as [rp|];
    [destruct (negb (String.eqb (JS.toLowerCase rp) "true")
               && negb (String.eqb (JS.toLowerCase rp) "false")); [eauto|]|];
  (destruct qmin as [rmin|];
    [destruct (JS.parseInt rmin) as [mn|]; [|eauto];
     destruct (mn <? 0); [eauto|]|]);
  (destruct qmax as [rmax|];
    [destruct (JS.parseInt rmax) as [mx|]; [|eauto];
     destruct (mx <? 0); [eauto|]|]);
  (destruct qw as [rw|];
    [destruct (JS.parseInt rw) as [w|]; [|eauto];
     destruct (w <? 0); [eauto|]|]);
  eauto.
Qed.

(** A [min_length] without leading digits, or below zero, is refused. *)
Lemma bad_min_length_rejected (q : Query.t) (strings : Store.t) (raw : string) :
  Query.min_length q = Some raw ->
  (JS.parseInt raw = None \/ exists n, JS.parseInt raw = Some n /\ n < 0) ->
  exists message, Server.listStrings q strings = Error 400 message.
Proof.
  intros Hc L. unfold Server.listStrings.
  destruct q as [qp qmin qmax qw qc]. cbn in Hc. subst qmin.
  unfold Server.by_is_palindrome, Server.by_min_length, andThen.
  cbn [Query.is_palindrome Query.min_length].
  assert (G : match JS.parseInt raw with
              | None => true | Some n => n <? 0 end = true).
  { destruct L as [->|(n & -> & L)]; [reflexivity | now apply Z.ltb_lt]. }
  destruct qp as [rp|];
    [destruct (negb (String.eqb (JS.toLowerCase rp) "true")
               && negb (String.eqb (JS.toLowerCase rp) "false")); [eauto|]|];
  (destruct (JS.parseInt raw) as [n|]; [rewrite G|]; eauto).
Qed.

(** C4, at the failing input.  [GET /strings?contains_character=] (the
    empty text, not one character) is not refused: the only test is
    [char.length > 1], so every record is returned and the empty text
    is echoed among the filters applied. *)
Theorem empty_contains_character_accepted (strings : Store.t) :
  Server.listStrings (Query.mk None None None None (Some "")) strings
  = Listing (Store.values strings) (Store.size strings)
      (Filters.set_contains_character "" Filters.empty).
Proof.
  unfold Server.listStrings, Server.by_contains_character. cbn.
  assert (E : filter (fun s => JS.includes (JS.toLowerCase (Analyzed.value s)) "")
                     (Store.values strings) = Store.values strings).
  { rewrite <- (filter_all (Store.values strings)) at 2.
    apply filter_ext. intros s. apply includes_empty. }
  rewrite E. unfold Store.size, Store.values. now rewrite length_map.
Qed.

(** The same request is refused by the handler of [part_000], whose test
    is [contains_character.length !== 1]. *)
Lemma part_000_rejects_empty_contains_character (strings : Store.t) :
  Part000.listStrings (Query.mk None None None None (Some "")) strings
  = Error 400 "contains_character must be a single character".
Proof. reflexivity. Qed.

(** [parseInt] stops at the first character that is not a digit, so a
    number followed by other text passes as that number. *)
Lemma trailing_text_accepted (strings : Store.t) :
  exists data,
    Server.listStrings (Query.mk None (Some "12abc") None None None) strings
    = Listing data (Z.of_nat (List.length data))
        (Filters.set_min_length 12 Filters.empty).
Proof. eexists. reflexivity. Qed.

(* ================================================================== *)
(** ** C5: negated palindrome phrases *)
(* ================================================================== *)

Lemma isNegativePalindrome_not_blank (lq : string) :
  Server.isNegativePalindrome lq = true -> blank lq = false.
Proof.
  unfold Server.isNegativePalindrome. intros H. apply orb_true_iff in H.
  destruct H as [H|H]; now apply includes_not_blank in H.
Qed.

(** C5.  A query with "non-palindrome" or "not palindrome" in it gets
    [is_palindrome = false]; [is_palindrome = true] is reported exactly
    when "palindrome" occurs and neither negated phrase does. *)
Theorem negated_palindrome_priority (query : string) :
  let lowerQuery := JS.toLowerCase query in
  (JS.includes lowerQuery "non-palindrome" || JS.includes lowerQuery "not palindrome"
   = true ->
   exists f, translate query = Some f /\ Filters.is_palindrome f = Some false)
  /\ (forall f, translate query = Some f ->
        (Filters.is_palindrome f = Some true <->
         JS.includes lowerQuery "palindrome" = true
         /\ JS.includes lowerQuery "non-palindrome"
            || JS.includes lowerQuery "not palindrome" = false)).
Proof.
  intros lowerQuery. split.
  - intros H. exists (Server.parseFilters lowerQuery). split.
    + apply translate_not_blank. rewrite <- blank_toLowerCase.
      now apply isNegativePalindrome_not_blank.
    + rewrite parseFilters_is_palindrome. unfold Server.isNegativePalindrome.
      now rewrite H.
  - intros f T. destruct (blank query) eqn:B.
    + assert (Bl : blank lowerQuery = true)
        by (unfold lowerQuery; now rewrite blank_toLowerCase).
      assert (P : JS.includes lowerQuery "palindrome" = false).
      { destruct (JS.includes lowerQuery "palindrome") eqn:E; [|reflexivity].
        apply includes_not_blank in E; [congruence | reflexivity]. }
      assert (E : f = Filters.empty).
      { unfold translate, Server.filterByNaturalLanguage in T.
        destruct (String.eqb query ""); [discriminate|].
        rewrite trim_eqb_blank in T. fold lowerQuery in T. rewrite Bl in T.
        cbn in T. congruence. }
      subst f. rewrite P. cbn. split; [discriminate | intros [[=] _]].
    + rewrite translate_not_blank in T by exact B. injection T as <-.
      fold lowerQuery. rewrite parseFilters_is_palindrome.
      unfold Server.isNegativePalindrome.
      destruct (JS.includes lowerQuery "non-palindrome"
                || JS.includes lowerQuery "not palindrome");
        destruct (JS.includes lowerQuery "palindrome");
        split; try discriminate; try (intros [? ?]; discriminate); auto.
Qed.

Lemma negated_palindrome_priority_witness :
  exists f, translate "all strings that are NOT palindromes" = Some f
            /\ Filters.is_palindrome f = Some false.
Proof.
  apply (negated_palindrome_priority "all strings that are NOT palindromes").
  vm_compute. reflexivity.
Defined.

(* ================================================================== *)
(** ** C6: longer than, shorter than *)
(* ================================================================== *)

(** Whatever the two patterns capture is a numeral. *)
Lemma length_match_captures (lq group1 : string) :
  Server.minLengthMatch lq = Some group1 \/ Server.maxLengthMatch lq = Some group1 ->
  exists N, JS.parseInt group1 = Some N /\ 0 <= N.
Proof.
  unfold Server.minLengthMatch, Server.maxLengthMatch.
  intros [H|H]; apply search_Some in H; destruct H as (pre & suf & _ & H);
    now apply keywordNumber_parses in H.
Qed.

(** The pattern read on the text: the keyword, white space or none, a
    numeral that is not continued, and no match further left. *)
Lemma search_keywordNumber_text (keyword pre ws ds rest : string) :
  (forall p1 p2, pre = p1 ++ p2 -> p2 <> "" ->
     Server.keywordNumber keyword (p2 ++ keyword ++ ws ++ ds ++ rest) = None) ->
  blank ws = true ->
  ds <> "" ->
  forallb JS.isDigit (list_ascii_of_string ds) = true ->
  startsWithDigit rest = false ->
  JS.search (Server.keywordNumber keyword) (pre ++ keyword ++ ws ++ ds ++ rest)
  = Some ds.
Proof.
  intros L B N D R. apply search_leftmost; [exact L|].
  now apply keywordNumber_complete.
Qed.



(** The variant of [part_000] takes the bound as it is written. *)
Lemma part_000_longer_than_not_strict :
  parsed_filters_of
    (Part000.filterByNaturalLanguage (JString "strings longer than 3") [])
  = Some (Filters.set_min_length 3 Filters.empty).
Proof. vm_compute. reflexivity. Qed.

(* ================================================================== *)
(** ** C7: empty and white-space-only queries *)
(* ================================================================== *)




(* ================================================================== *)
(** ** C8: word count *)
(* ================================================================== *)

(** C8.  [word_count] is the number of words of the value, that is the
    number of pieces of the trimmed value split at the runs of white
    space (each piece is not empty and has no white space in it), and
    0 when the trimmed value is empty; "one two  three" has 3 words. *)
Theorem word_count_tokens (value now : string) :
  let word_count :=
    Properties.word_count (Analyzed.properties (Server.analyzeString value now)) in
  word_count = countWords true value
  /\ (JS.trim value <> "" ->
      word_count = Z.of_nat (List.length (JS.split_ws (JS.trim value)))
      /\ Forall (fun piece => piece <> "" /\ noSpace piece = true)
                (JS.split_ws (JS.trim value)))
  /\ (JS.trim value = "" -> word_count = 0)
  /\ Properties.word_count
       (Analyzed.properties (Server.analyzeString "one two  three" now)) = 3.
Proof.
  cbn. split; [apply word_count_countWords|]. split; [|split].
  - intros N. split.
    + destruct (String.eqb_spec (JS.trim value) ""); [contradiction|reflexivity].
    + apply split_ws_trim_words. destruct (blank value) eqn:B; [|reflexivity].
      apply trim_blank in B. contradiction.
  - intros E. now rewrite E.
  - reflexivity.
Qed.

Lemma word_count_tokens_witness :
  Properties.word_count
    (Analyzed.properties (Server.analyzeString "    " stamp)) = 0.
Proof.
  apply (word_count_tokens "    " stamp). reflexivity.
Defined.

(** The older variants split without the test for the empty text: a
    value of white space only is stored with [word_count = 1]. *)
Lemma part_000_blank_word_count :
  match fst (Part000.postStrings (JString "  ") stamp []) with
  | Created _ r => Properties.word_count (Analyzed.properties r)
  | _ => -1
  end = 1.
Proof. vm_compute. reflexivity. Qed.

(* ================================================================== *)
(** ** C9: the substring fallback *)
(* ================================================================== *)

(** C9, counterexample.  In "first vowel" none of the rules palindrome,
    single word, longer than, shorter than, contain the letter matches,
    and still the filters are [{contains_character: "a"}], not the
    fallback.  The query " " is not empty and matches no rule either;
    it gets the empty filters. *)
Lemma fallback_not_taken :
  (JS.includes "first vowel" "palindrome" = false
   /\ JS.includes "first vowel" "single word" = false
   /\ Server.minLengthMatch "first vowel" = None
   /\ Server.maxLengthMatch "first vowel" = None
   /\ Server.charMatch "first vowel" = None
   /\ translate "first vowel"
      = Some (Filters.set_contains_character "a" Filters.empty))
  /\ translate " " = Some Filters.empty.
Proof. repeat split; vm_compute; reflexivity. Qed.

(** C9, as amended.  For a query that is not white space only and in
    which none of the rules palindrome, single word, longer than,
    shorter than, first vowel, contain the letter matches, the handler
    answers 200 with [value_contains] set to the lower-cased query as
    the only filter, and returns the records whose value contains that
    text, letter case apart. *)
Theorem fallback_value_contains (query : string) (strings : Store.t) :
  let lowerQuery := JS.toLowerCase query in
  blank query = false ->
  JS.includes lowerQuery "palindrome" = false ->
  JS.includes lowerQuery "single word" = false ->
  Server.minLengthMatch lowerQuery = None ->
  Server.maxLengthMatch lowerQuery = None ->
  JS.includes lowerQuery "first vowel" = false ->
  Server.charMatch lowerQuery = None ->
  let results :=
    filter (fun s => JS.includes (JS.toLowerCase (Analyzed.value s))
                                 (JS.toLowerCase query))
           (Store.values strings) in
  Server.filterByNaturalLanguage (JString query) strings
  = Interpreted results (Z.of_nat (List.length results)) query
      (Filters.set_value_contains lowerQuery Filters.empty).
Proof.
  intros lowerQuery B P W Mn Mx V C results.
  rewrite natural_not_blank by exact B. fold lowerQuery.
  rewrite (parseFilters_fallback lowerQuery P W Mn Mx V C).
  reflexivity.
Qed.

Lemma fallback_value_contains_witness :
  Server.filterByNaturalLanguage (JString "Hello")
    (run [POST_strings (JString "hello world") stamp;
          POST_strings (JString "racecar") stamp])
  = Interpreted [Server.analyzeString "hello world" stamp] 1 "Hello"
      (Filters.set_value_contains "hello" Filters.empty).
Proof.
  refine (eq_trans
            (fallback_value_contains "Hello"
               (run [POST_strings (JString "hello world") stamp;
                     POST_strings (JString "racecar") stamp])
               _ _ _ _ _ _ _) _);
    vm_compute; reflexivity.
Defined.

(* ================================================================== *)
(** ** C10: first vowel *)
(* ================================================================== *)

(** C10.  When the lower-cased query contains "first vowel" the filters
    have [contains_character = "a"], whatever letter a
    "contain(ing) the letter X" phrase of the same query names. *)
Theorem first_vowel_overrides_letter (query : string) :
  JS.includes (JS.toLowerCase query) "first vowel" = true ->
  exists f, translate query = Some f
            /\ Filters.contains_character f = Some "a"
            /\ forall letter,
                 Server.charMatch (JS.toLowerCase query) = Some letter ->
                 Filters.contains_character f = Some "a".
Proof.
  intros H. exists (Server.parseFilters (JS.toLowerCase query)).
  assert (C : Filters.contains_character (Server.parseFilters (JS.toLowerCase query))
              = Some "a")
    by now rewrite parseFilters_contains_character, H.
  split; [|split; [exact C | intros _ _; exact C]].
  apply translate_not_blank. rewrite <- blank_toLowerCase.
  now apply includes_not_blank in H.
Qed.

Lemma first_vowel_overrides_letter_witness :
  Server.charMatch
    (JS.toLowerCase "Strings containing the letter z after the first vowel")
  = Some "z"
  /\ exists f,
       translate "Strings containing the letter z after the first vowel" = Some f
       /\ Filters.contains_character f = Some "a".
Proof.
  split; [vm_compute; reflexivity|].
  destruct (first_vowel_overrides_letter
              "Strings containing the letter z after the first vowel")
    as (f & T & C & _).
  - vm_compute. reflexivity.
  - exists f. split; assumption.
Defined.

(* ================================================================== *)
(** ** The store over a run of requests *)
(* ================================================================== *)

Section StoreRuns.
Import JS.

Lemma trimStart_head (s : string) (c : ascii) (r : string) :
  trimStart s = String c r -> isWhiteSpace c = false.
Proof.
  unfold trimStart. induction s as [|d s IH]; simpl; [discriminate|].
  destruct (isWhiteSpace d) eqn:D; [exact IH | congruence].
Qed.

Lemma blank_trimEnd (s : string) : blank (trimEnd s) = blank s.
Proof.
  induction s as [|c s IH]; [reflexivity|].
  rewrite trimEnd_cons. destruct (blank (String c s)) eqn:B; [reflexivity|].
  unfold blank in *. simpl in *. now rewrite IH.
Qed.

Lemma trimEnd_idem (s : string) : trimEnd (trimEnd s) = trimEnd s.
Proof.
  induction s as [|c s IH]; [reflexivity|].
  rewrite trimEnd_cons. destruct (blank (String c s)) eqn:B; [reflexivity|].
  rewrite trimEnd_cons, IH.
  assert (E : blank (String c (trimEnd s)) = blank (String c s)).
  { unfold blank. simpl. f_equal. apply blank_trimEnd. }
  now rewrite E, B.
Qed.

Lemma trim_idem (s : string) : trim (trim s) = trim s.
Proof.
  unfold trim. destruct (trimStart s) as [|c r] eqn:S; [reflexivity|].
  pose proof (trimStart_head s c r S) as W.
  rewrite trimEnd_cons.
  assert (B : blank (String c r) = false) by (unfold blank; simpl; now rewrite W).
  rewrite B. unfold trimStart at 1. simpl. rewrite W.
  rewrite trimEnd_cons.
  assert (B' : blank (String c (trimEnd r)) = false)
    by (unfold blank; simpl; now rewrite W).
  now rewrite B', trimEnd_idem.
Qed.

Lemma has_false_filter (k : string) (m : Store.t) :
  Store.has k m = false ->
  filter (fun p => negb (String.eqb (fst p) k)) m = m.
Proof.
  unfold Store.has. induction m as [|p m IH]; simpl; [reflexivity|].
  intros H. apply orb_false_iff in H. destruct H as [H1 H2].
  rewrite H1. simpl. now rewrite IH.
Qed.

Lemma has_delete (k : string) (m : Store.t) :
  Store.has k (snd (Store.delete k m)) = false.
Proof.
  unfold Store.delete, Store.has. simpl.
  induction m as [|p m IH]; simpl; [reflexivity|].
  destruct (String.eqb (fst p) k) eqn:E; simpl; [exact IH|].
  now rewrite E.
Qed.

Lemma get_delete_other (k k' : string) (m : Store.t) :
  k' <> k -> Store.get k' (snd (Store.delete k m)) = Store.get k' m.
Proof.
  intros N. unfold Store.delete, Store.get. simpl.
  induction m as [|p m IH]; simpl; [reflexivity|].
  destruct (String.eqb_spec (fst p) k) as [E|E]; simpl.
  - destruct (String.eqb_spec (fst p) k') as [E'|E']; [congruence | exact IH].
  - destruct (String.eqb (fst p) k'); [reflexivity | exact IH].
Qed.


(** What a 201 of the POST handler says about its input and the store. *)
Lemma post_created (value now : string) (strings s' : Store.t) (r : Analyzed.t)
      (message : option string) :
  Server.postStrings (JString value) now strings = (Created message r, s') ->
  trim value <> ""
  /\ r = Server.analyzeString (trim value) now
  /\ Store.has (Analyzed.id r) strings = false
  /\ s' = (strings ++ [(Analyzed.id r, r)])%list.
Proof.
  unfold Server.postStrings.
  destruct (String.eqb_spec (trim value) "") as [E|E]; [discriminate|].
  destruct (Store.has _ strings) eqn:H; [discriminate|].
  intros [= <- <- <-]. repeat split; try assumption.
  now apply set_absent.
Qed.

Lemma handle_wellStored (r : Request) (strings : Store.t) :
  wellStored strings -> wellStored (snd (handle r strings)).
Proof.
  intros W. destruct r; simpl; try exact W.
  - unfold Server.postStrings. destruct value; simpl; try exact W.
    destruct (String.eqb_spec (trim s) "") as [E|E]; simpl; [exact W|].
    destruct (Store.has _ strings) eqn:H; simpl; [exact W|].
    rewrite set_absent by exact H. apply Forall_app. split; [exact W|].
    constructor; [|constructor]. cbn.
    repeat split; [apply trim_idem | exact E].
  - unfold Server.deleteString.
    assert (D : wellStored
                  (snd (Store.delete
                          (Analyzed.id (Server.analyzeString value now)) strings))).
    { unfold Store.delete, wellStored in *. simpl.
      apply Forall_forall. intros p Hp. apply filter_In in Hp.
      rewrite Forall_forall in W. apply W. tauto. }
    destruct (Store.delete _ strings) as [[] m']; exact D.
Qed.

End StoreRuns.

(** X1.  Whatever requests the server has answered, every entry of the
    store is the record [analyzeString] makes of its own value, the
    value is trimmed and not empty, and the entry is kept under the
    record's id, the digest of that value. *)
Theorem run_wellStored (requests : list Request) :
  wellStored (run requests)
  /\ forall k r, In (k, r) (run requests) ->
       k = SHA256.hex (Analyzed.value r)
       /\ Store.get k (run requests) = Some r.
Proof.
  assert (W : wellStored (run requests)).
  { unfold run.
    assert (G : forall m, wellStored m ->
      wellStored (fold_left (fun strings r => snd (handle r strings)) requests m)).
    { induction requests as [|r rs IH]; intros m Hm; simpl; [exact Hm|].
      apply IH. now apply handle_wellStored. }
    apply G. constructor. }
  split; [exact W|]. intros k r Hin.
  pose proof (run_NoDup requests) as D.
  unfold wellStored in W. rewrite Forall_forall in W.
  destruct (W _ Hin) as (K & A & _). cbn in K, A. split.
  - rewrite K, A. reflexivity.
  - clear K A W. revert D Hin. generalize (run requests) as m. unfold Store.get, Store.keys.
    induction m as [|[a b] m IH]; simpl; intros D Hin'; [contradiction|].
    destruct Hin' as [E|Hin'].
    + injection E as E1 E2. subst a b. now rewrite String.eqb_refl.
    + inversion D as [|? ? Hn Hd]; subst.
      destruct (String.eqb_spec a k) as [E|_].
      * exfalso. apply Hn. apply in_map_iff. exists (k, r). now split.
      * now apply IH.
Qed.





(** X4.  DELETE of a value whose id is not stored answers 404 and leaves
    the store as it is; when the id is stored it answers 204, the id is
    gone afterwards, and every other id still fetches what it did. *)
Theorem delete_effect (value now : string) (strings : Store.t) :
  let k := Analyzed.id (Server.analyzeString value now) in
  (Store.has k strings = false ->
   Server.deleteString value now strings = (Error 404 "String not found", strings))
  /\ (Store.has k strings = true ->
      fst (Server.deleteString value now strings) = NoContent
      /\ Store.has k (snd (Server.deleteString value now strings)) = false
      /\ forall k', k' <> k ->
           Store.get k' (snd (Server.deleteString value now strings))
           = Store.get k' strings).
Proof.
  intros k. unfold Server.deleteString. fold k. split; intros H.
  - unfold Store.delete. rewrite H. now rewrite has_false_filter.
  - pose proof (has_delete k strings) as D.
    pose proof (fun k' => get_delete_other k k' strings) as G.
    unfold Store.delete in *. rewrite H. cbn [fst snd] in *.
    split; [reflexivity|]. split; [exact D | exact G].
Qed.

Lemma delete_effect_witness :
  Server.deleteString "never stored" stamp
    (run [POST_strings (JString "hello") stamp])
  = (Error 404 "String not found", run [POST_strings (JString "hello") stamp]).
Proof.
  apply (delete_effect "never stored" stamp
           (run [POST_strings (JString "hello") stamp])).
  vm_compute. reflexivity.
Defined.

(** X5.  A request that is answered with an error leaves the store as it
    was, whatever the request; so do the three GET routes, whatever
    they answer. *)
Theorem errors_leave_store (request : Request) (strings : Store.t) :
  (isError (fst (handle request strings)) = true ->
   snd (handle request strings) = strings)
  /\ (match request with
      | GET_string _ _ | GET_strings _ | GET_natural _ => True
      | _ => False
      end -> snd (handle request strings) = strings).
Proof.
  split.
  - destruct request; simpl; try reflexivity.
    + unfold Server.postStrings. destruct value; simpl; try reflexivity.
      destruct (String.eqb (JS.trim s) ""); simpl; [reflexivity|].
      destruct (Store.has _ strings); simpl; [reflexivity | discriminate].
    + unfold Server.deleteString, Store.delete.
      destruct (Store.has _ strings) eqn:H; simpl; [discriminate|].
      intros _. now apply has_false_filter.
  - destruct request; simpl; intros []; reflexivity.
Qed.

Lemma errors_leave_store_witness :
  snd (handle (POST_strings (JString "   ") stamp)
         (run [POST_strings (JString "hello") stamp]))
  = run [POST_strings (JString "hello") stamp].
Proof.
  apply (proj1 (errors_leave_store (POST_strings (JString "   ") stamp)
                  (run [POST_strings (JString "hello") stamp]))).
  reflexivity.
Defined.

(** X6.  After a value was stored, submitting any text that is equal to
    it after trimming answers 409 and changes nothing. *)
Theorem post_trim_equal_conflict (value other now now' : string)
        (strings s' : Store.t) (r : Analyzed.t) (message : option string) :
  Server.postStrings (JString value) now strings = (Created message r, s') ->
  JS.trim other = JS.trim value ->
  Server.postStrings (JString other) now' s'
  = (Error 409 "String already exists in the system.", s').
Proof.
  intros P E. apply post_created in P. destruct P as (N & R & H & ->).
  unfold Server.postStrings. rewrite E.
  destruct (String.eqb_spec (JS.trim value) "") as [Z|_]; [contradiction|].
  assert (I : Analyzed.id (Server.analyzeString (JS.trim value) now')
              = Analyzed.id r) by now rewrite R.
  rewrite I, <- set_absent by exact H. now rewrite has_set.
Qed.

Lemma post_trim_equal_conflict_witness :
  Server.postStrings (JString "   racecar") stamp
    (snd (Server.postStrings (JString "racecar  ") stamp []))
  = (Error 409 "String already exists in the system.",
     snd (Server.postStrings (JString "racecar  ") stamp [])).
Proof.
  apply (post_trim_equal_conflict "racecar  " "   racecar" stamp stamp []
           (snd (Server.postStrings (JString "racecar  ") stamp []))
           (Server.analyzeString "racecar" stamp) None).
  - vm_compute. reflexivity.
  - reflexivity.
Defined.

(* ================================================================== *)
(** ** The properties [analyzeString] computes *)
(* ================================================================== *)

Section AnalyzerFacts.
Import JS.

Lemma list_of_append (a b : string) :
  list_ascii_of_string (a ++ b)
  = (list_ascii_of_string a ++ list_ascii_of_string b)%list.
Proof. induction a as [|c a IH]; simpl; [reflexivity | now rewrite IH]. Qed.


Lemma list_of_toLowerCase (s : string) :
  list_ascii_of_string (toLowerCase s) = map lowerChar (list_ascii_of_string s).
Proof. induction s as [|c s IH]; simpl; [reflexivity | now rewrite IH]. Qed.

Lemma length_list_of (s : string) :
  List.length (list_ascii_of_string s) = String.length s.
Proof. induction s as [|c s IH]; simpl; [reflexivity | now rewrite IH]. Qed.










Lemma countWords_bounds (s : string) (b : bool) :
  0 <= countWords b s
  /\ 2 * countWords b s <= JS.length s + (if b then 1 else 0).
Proof.
  unfold JS.length. revert b.
  induction s as [|c s IH]; intros b; cbn [countWords String.length].
  - destruct b; lia.
  - rewrite Nat2Z.inj_succ.
    destruct (isWhiteSpace c).
    + destruct (IH true). destruct b; lia.
    + destruct (IH false). destruct b; lia.
Qed.

Lemma countWords_positive (s : string) :
  blank s = false -> 1 <= countWords true s.
Proof.
  unfold blank.
  induction s as [|c s IH]; cbn [countWords list_ascii_of_string forallb];
    [discriminate|].
  destruct (isWhiteSpace c); cbn [andb]; [exact IH|].
  intros _. pose proof (countWords_bounds s false). lia.
Qed.

End AnalyzerFacts.



(** X9.  [unique_characters] is never more than [length], and a value
    that is not empty has at least one; [word_count] is at least 1 for
    a value that is not white space only, 0 for one that is, and twice
    the word count is never more than [length + 1]. *)
Theorem property_bounds (value now : string) :
  let p := Analyzed.properties (Server.analyzeString value now) in
  0 <= Properties.unique_characters p <= Properties.length p
  /\ (value <> "" -> 1 <= Properties.unique_characters p)
  /\ 2 * Properties.word_count p <= Properties.length p + 1
  /\ (blank value = false -> 1 <= Properties.word_count p)
  /\ (blank value = true -> Properties.word_count p = 0).
Proof.
  cbv zeta. unfold Server.analyzeString.
  cbn [Analyzed.properties Properties.unique_characters Properties.length
       Properties.word_count].
  rewrite word_count_countWords.
  unfold JS.setSize, JS.length. rewrite <- length_list_of.
  split; [split; [lia|]|split; [|split; [|split]]].
  - apply inj_le. apply NoDup_incl_length; [apply NoDup_nodup|].
    intros c Hc. now apply nodup_In in Hc.
  - intros N. destruct value as [|c v]; [contradiction|].
    assert (H : In c (nodup ascii_dec (list_ascii_of_string (String c v))))
      by (apply nodup_In; now left).
    destruct (nodup ascii_dec (list_ascii_of_string (String c v)));
      [contradiction | cbn [List.length]; lia].
  - pose proof (countWords_bounds value true) as B. unfold JS.length in B.
    rewrite length_list_of. lia.
  - apply countWords_positive.
  - intros B. now apply countWords_blank.
Qed.

Lemma property_bounds_witness :
  1 <= Properties.word_count
         (Analyzed.properties (Server.analyzeString "  one two  " stamp)).
Proof.
  apply (property_bounds "  one two  " stamp). reflexivity.
Defined.

(* ================================================================== *)
(** ** The two listing routes *)
(* ================================================================== *)





(** X12.  Filtering looks at each record on its own: it distributes over
    the concatenation of two lists, filtering twice with the same
    filters changes nothing, and two filterings can be swapped. *)
Theorem executeFiltering_compose (f g : Filters.t) (xs ys : list Analyzed.t) :
  Server.executeFiltering f (xs ++ ys)
  = (Server.executeFiltering f xs ++ Server.executeFiltering f ys)%list
  /\ Server.executeFiltering f (Server.executeFiltering f xs)
     = Server.executeFiltering f xs
  /\ Server.executeFiltering f (Server.executeFiltering g xs)
     = Server.executeFiltering g (Server.executeFiltering f xs).
Proof.
  rewrite !executeFiltering_conj. split; [apply filter_app|]. split.
  - rewrite filter_filter. apply filter_ext. intros s. apply andb_diag.
  - rewrite !filter_filter. apply filter_ext. intros s. apply andb_comm.
Qed.

(* ================================================================== *)
(** ** What the natural-language handler can report *)
(* ================================================================== *)

Section ReportedFilters.
Import JS.

Lemma containLetter_shape (s group1 : string) :
  Server.containLetter s = Some group1 ->
  exists mid ch rest,
    s = "contain" ++ mid ++ " the letter " ++ String ch rest
    /\ group1 = String ch ""
    /\ isWordChar ch = true.
Proof.
  unfold Server.containLetter.
  destruct (dropPrefix "contain" s) as [r|] eqn:P; [|discriminate].
  apply dropPrefix_Some in P. subst s.
  assert (T : forall x, Server.theLetter x = Some group1 ->
              exists ch rest, x = " the letter " ++ String ch rest
                              /\ group1 = String ch "" /\ isWordChar ch = true).
  { intros x. unfold Server.theLetter.
    destruct (dropPrefix " the letter " x) as [[|ch rest]|] eqn:Q; try discriminate.
    destruct (isWordChar ch) eqn:W; [|discriminate]. intros [= <-].
    apply dropPrefix_Some in Q. now exists ch, rest. }
  destruct (dropPrefix "ing" r) as [r'|] eqn:Q.
  - apply dropPrefix_Some in Q. subst r.
    destruct (Server.theLetter r') eqn:L.
    + intros [= ->]. destruct (T _ L) as (ch & rest & -> & G & W).
      now exists "ing", ch, rest.
    + intros L'. destruct (T _ L') as (ch & rest & E & G & W).
      exists "", ch, rest. now rewrite E.
  - intros L'. destruct (T _ L') as (ch & rest & E & G & W).
    exists "", ch, rest. now rewrite E.
Qed.

Lemma In_toLowerCase (q : string) (ch : ascii) :
  In ch (list_ascii_of_string (toLowerCase q)) -> lowerChar ch = ch.
Proof.
  rewrite list_of_toLowerCase, in_map_iff. intros (x & <- & _).
  apply lowerChar_idem.
Qed.

Lemma toLowerCase_empty (q : string) : toLowerCase q = "" <-> q = "".
Proof. destruct q; simpl; split; congruence. Qed.

End ReportedFilters.

(** X13.  The filters the handler reports are bounded: [min_length] is
    at least 1, [max_length] at least -1, [word_count] can only be 1,
    and [contains_character] is a single lower-case letter, digit or
    underscore. *)
Theorem translate_bounds (query : string) (f : Filters.t) :
  translate query = Some f ->
  (forall n, Filters.min_length f = Some n -> 1 <= n)
  /\ (forall n, Filters.max_length f = Some n -> -1 <= n)
  /\ (forall n, Filters.word_count f = Some n -> n = 1)
  /\ (forall c, Filters.contains_character f = Some c ->
        exists ch, c = String ch ""
                   /\ JS.isWordChar ch = true /\ JS.lowerChar ch = ch).
Proof.
  intros T. destruct (blank query) eqn:B.
  - assert (E : f = Filters.empty).
    { unfold translate, Server.filterByNaturalLanguage in T.
      destruct (String.eqb query ""); [discriminate|].
      rewrite trim_eqb_blank, blank_toLowerCase, B in T. cbn in T. congruence. }
    subst f. cbn. repeat split; intros; discriminate.
  - rewrite translate_not_blank in T by exact B. injection T as <-.
    set (lq := JS.toLowerCase query).
    split; [|split; [|split]].
    + intros n. rewrite parseFilters_min_length.
      destruct (Server.minLengthMatch lq) as [g|] eqn:M; [|discriminate].
      destruct (length_match_captures lq g (or_introl M)) as (N & P & G).
      rewrite P. cbn. intros [= <-]. lia.
    + intros n. rewrite parseFilters_max_length.
      destruct (Server.maxLengthMatch lq) as [g|] eqn:M; [|discriminate].
      destruct (length_match_captures lq g (or_intror M)) as (N & P & G).
      rewrite P. cbn. intros [= <-]. lia.
    + intros n. unfold Server.parseFilters, Server.isPositivePalindrome.
      destruct (Server.isNegativePalindrome lq), (JS.includes lq "palindrome"),
        (JS.includes lq "single word"), (JS.includes lq "first vowel");
        destruct (Server.minLengthMatch lq) as [a|]; try destruct (JS.parseInt a);
        destruct (Server.maxLengthMatch lq) as [b|]; try destruct (JS.parseInt b);
        destruct (Server.charMatch lq); cbn; congruence.
    + intros c. rewrite parseFilters_contains_character.
      destruct (JS.includes lq "first vowel").
      * intros [= <-]. exists "a"%char. repeat split.
      * unfold Server.charMatch. intros S. apply search_Some in S.
        destruct S as (pre & suf & E & S).
        apply containLetter_shape in S.
        destruct S as (mid & ch & rest & -> & -> & W).
        exists ch. split; [reflexivity|]. split; [exact W|].
        apply (In_toLowerCase query). fold lq. rewrite E.
        rewrite !list_of_append, !in_app_iff. do 4 right. now left.
Qed.

Lemma translate_bounds_witness :
  exists n, Filters.max_length (Server.parseFilters "shorter than 0") = Some n
            /\ -1 <= n.
Proof.
  exists (-1). split; [reflexivity|].
  apply (translate_bounds "shorter than 0" (Server.parseFilters "shorter than 0"));
    reflexivity.
Defined.

(** X14.  The substring fallback and the rules exclude each other: when
    [value_contains] is reported it is the lower-cased query and the
    only key, and when it is not reported for a query that is not white
    space only, at least one other key is. *)
Theorem fallback_exclusive (query : string) (f : Filters.t) :
  translate query = Some f ->
  match Filters.value_contains f with
  | Some v =>
      v = JS.toLowerCase query /\ f = Filters.set_value_contains v Filters.empty
  | None =>
      if blank query then f = Filters.empty else 1 <= Filters.keys_length f
  end.
Proof.
  intros T. destruct (blank query) eqn:B.
  - assert (E : f = Filters.empty).
    { unfold translate, Server.filterByNaturalLanguage in T.
      destruct (String.eqb query ""); [discriminate|].
      rewrite trim_eqb_blank, blank_toLowerCase, B in T. cbn in T. congruence. }
    now subst f.
  - rewrite translate_not_blank in T by exact B. injection T as <-.
    set (lq := JS.toLowerCase query).
    unfold Server.parseFilters, Server.isPositivePalindrome.
    destruct (Server.isNegativePalindrome lq), (JS.includes lq "palindrome"),
      (JS.includes lq "single word"), (JS.includes lq "first vowel");
      destruct (Server.minLengthMatch lq) as [a|]; try destruct (JS.parseInt a);
      destruct (Server.maxLengthMatch lq) as [b|]; try destruct (JS.parseInt b);
      destruct (Server.charMatch lq); cbn; try (split; reflexivity); lia.
Qed.

Lemma fallback_exclusive_witness :
  match Filters.value_contains (Server.parseFilters "hello") with
  | Some v =>
      v = JS.toLowerCase "Hello"
      /\ Server.parseFilters "hello" = Filters.set_value_contains v Filters.empty
  | None =>
      if blank "Hello" then Server.parseFilters "hello" = Filters.empty
      else 1 <= Filters.keys_length (Server.parseFilters "hello")
  end.
Proof.
  apply (fallback_exclusive "Hello" (Server.parseFilters "hello")).
  vm_compute. reflexivity.
Defined.

(** X15.  The letter case of the query does not matter: two queries with
    the same lower-case form get the same filters and the same
    records. *)
Theorem natural_language_ignores_case (query query' : string) (strings : Store.t) :
  JS.toLowerCase query = JS.toLowerCase query' ->
  parsed_filters_of (Server.filterByNaturalLanguage (JString query) strings)
  = parsed_filters_of (Server.filterByNaturalLanguage (JString query') strings)
  /\ data_of (Server.filterByNaturalLanguage (JString query) strings)
     = data_of (Server.filterByNaturalLanguage (JString query') strings).
Proof.
  intros E. unfold Server.filterByNaturalLanguage.
  destruct (String.eqb_spec query "") as [->|N];
    destruct (String.eqb_spec query' "") as [->|N'].
  - split; reflexivity.
  - symmetry in E. apply (proj1 (toLowerCase_empty query')) in E. contradiction.
  - apply (proj1 (toLowerCase_empty query)) in E. contradiction.
  - rewrite <- E.
    destruct (String.eqb (JS.trim (JS.toLowerCase query)) ""); split; reflexivity.
Qed.

Lemma natural_language_ignores_case_witness :
  parsed_filters_of
    (Server.filterByNaturalLanguage (JString "Single Word strings") [])
  = parsed_filters_of
      (Server.filterByNaturalLanguage (JString "SINGLE WORD STRINGS") []).
Proof.
  apply (natural_language_ignores_case "Single Word strings" "SINGLE WORD STRINGS" []).
  reflexivity.
Defined.

(* ================================================================== *)
(** ** The older variants *)
(* ================================================================== *)

Section VariantFacts.
Import JS.

Lemma get_set (k : string) (v : Analyzed.t) (m : Store.t) :
  Store.get k (Store.set k v m) = Some v.
Proof.
  unfold Store.set. destruct (Store.has k m) eqn:H.
  - unfold Store.get, Store.has in *.
    induction m as [|[a b] m IH]; simpl in *; [discriminate|].
    destruct (String.eqb_spec a k) as [E|E]; simpl.
    + now rewrite String.eqb_refl.
    + destruct (String.eqb_spec a k); [contradiction|]. now apply IH.
  - rewrite <- set_absent by exact H. now apply get_set_absent.
Qed.

Lemma size_set (k : string) (v : Analyzed.t) (m : Store.t) :
  Store.size (Store.set k v m)
  = Store.size m + (if Store.has k m then 0 else 1).
Proof.
  unfold Store.set, Store.size. destruct (Store.has k m).
  - rewrite length_map. lia.
  - rewrite length_app. simpl. lia.
Qed.

Lemma delete_appended (k : string) (v : Analyzed.t) (m : Store.t) :
  Store.has k m = false ->
  Store.delete k (Store.set k v m) = (true, m).
Proof.
  intros H. unfold Store.delete. rewrite has_set.
  rewrite set_absent by exact H. rewrite filter_app. simpl.
  rewrite String.eqb_refl. simpl.
  rewrite has_false_filter by exact H. now rewrite app_nil_r.
Qed.

End VariantFacts.

(** X16.  In [part_000] a stored value is found under any spelling that
    agrees with it after trimming and lower-casing: the fetch answers
    200 with the stored record, a second submission answers 409, and
    the delete answers 204 and gives back the store of before. *)
Theorem part_000_any_case (value other now now' : string)
        (strings s' : Store.t) (r : Analyzed.t) (message : option string) :
  Part000.postStrings (JString value) now strings = (Created message r, s') ->
  other <> "" ->
  JS.toLowerCase (JS.trim other) = JS.toLowerCase (JS.trim value) ->
  Part000.getString other s' = Found r
  /\ Part000.postStrings (JString other) now' s'
     = (Error 409 "String already exists", s')
  /\ Part000.deleteString other s' = (NoContent, strings)
  /\ Analyzed.value r = JS.trim value.
Proof.
  unfold Part000.postStrings, Part000.getString, Part000.deleteString,
    Part000.hashOf.
  intros P N E.
  destruct (String.eqb value ""); [discriminate|].
  destruct (String.eqb_spec other "") as [Z|_]; [contradiction|].
  rewrite E.
  set (hash := SHA256.hex (JS.toLowerCase (JS.trim value))) in *.
  destruct (Store.has hash strings) eqn:H; [discriminate|].
  injection P as <- <- <-.
  rewrite has_set, get_set. cbn [negb].
  split; [reflexivity|]. split; [reflexivity|]. split; [|reflexivity].
  now rewrite delete_appended.
Qed.

Lemma part_000_any_case_witness :
  Part000.getString "RACECAR  "
    (snd (Part000.postStrings (JString " Racecar") stamp []))
  = Found (Analyzed.mk (SHA256.hex "racecar") "Racecar"
             (Properties.mk 7 true 4 1 (SHA256.hex "racecar")
                [("R"%char, 1); ("a"%char, 2); ("c"%char, 2); ("e"%char, 1);
                 ("r"%char, 1)])
             stamp).
Proof.
  apply (part_000_any_case " Racecar" "RACECAR  " stamp stamp []
           (snd (Part000.postStrings (JString " Racecar") stamp []))
           _ None).
  - vm_compute. reflexivity.
  - discriminate.
  - reflexivity.
Defined.

(** X17.  In [part_001] a second submission that agrees with a stored
    value after trimming and lower-casing answers 409 and changes
    nothing; the record keeps the letter case of the first
    submission. *)
Theorem part_001_any_case_conflict (value other now now' : string)
        (strings s' : Store.t) (r : Analyzed.t) (message : option string) :
  Part001.postStrings (JString value) now strings = (Created message r, s') ->
  other <> "" ->
  JS.toLowerCase (JS.trim other) = JS.toLowerCase (JS.trim value) ->
  Part001.postStrings (JString other) now' s'
  = (Error 409 "String already exists", s')
  /\ Analyzed.value r = JS.trim value.
Proof.
  unfold Part001.postStrings. intros P N E.
  destruct (String.eqb value ""); [discriminate|].
  destruct (String.eqb_spec other "") as [Z|_]; [contradiction|].
  assert (I : forall v t, Analyzed.id (Part001.analyzeString v t)
                          = SHA256.hex (JS.toLowerCase v)) by reflexivity.
  rewrite !I in *. rewrite E.
  destruct (Store.has _ strings) eqn:H; [discriminate|].
  injection P as <- <- <-. rewrite ?I, has_set. split; reflexivity.
Qed.

Lemma part_001_any_case_conflict_witness :
  Part001.postStrings (JString "HELLO") stamp
    (snd (Part001.postStrings (JString "Hello ") stamp []))
  = (Error 409 "String already exists",
     snd (Part001.postStrings (JString "Hello ") stamp [])).
Proof.
  apply (part_001_any_case_conflict "Hello " "HELLO" stamp stamp []
           (snd (Part001.postStrings (JString "Hello ") stamp []))
           (Part001.analyzeString "Hello" stamp)
           (Some "String added successfully")).
  - vm_compute. reflexivity.
  - discriminate.
  - reflexivity.
Defined.

(** X18.  The file-backed variant never answers 409: every text that is
    not empty is stored with 201, the new record is what its id fetches
    afterwards, the store grows by one entry when the id is new and
    keeps its size when the id was there, and no id occurs twice. *)
Theorem file_variant_last_writer_wins (value now : string) (strings : Store.t) :
  value <> "" ->
  let analyzed := ServerFile.analyzeString value now in
  let after := snd (ServerFile.postStrings (JString value) now strings) in
  fst (ServerFile.postStrings (JString value) now strings)
  = Created (Some "String added successfully") analyzed
  /\ Store.get (Analyzed.id analyzed) after = Some analyzed
  /\ Store.size after
     = Store.size strings
       + (if Store.has (Analyzed.id analyzed) strings then 0 else 1)
  /\ (NoDup (Store.keys strings) -> NoDup (Store.keys after)).
Proof.
  intros N analyzed after. unfold after, ServerFile.postStrings.
  destruct (String.eqb_spec value "") as [Z|_]; [contradiction|].
  fold analyzed. cbn [fst snd].
  split; [reflexivity|]. split; [apply get_set|]. split; [apply size_set|].
  apply NoDup_set.
Qed.

Lemma file_variant_last_writer_wins_witness :
  Store.size
    (snd (ServerFile.postStrings (JString "racecar") stamp
            (snd (ServerFile.postStrings (JString "racecar") stamp []))))
  = 1.
Proof.
  refine (eq_trans
            (proj1 (proj2 (proj2
               (file_variant_last_writer_wins "racecar" stamp
                  (snd (ServerFile.postStrings (JString "racecar") stamp []))
                  _)))) _).
  - discriminate.
  - vm_compute. reflexivity.
Defined.



(** X20.  [part_000] lets a submission of white space only through: it
    is stored as the empty text, with length 0 and word count 1. *)
Theorem part_000_stores_blank (value now : string) (strings : Store.t) :
  value <> "" -> blank value = true ->
  Store.has (SHA256.hex "") strings = false ->
  exists r,
    Part000.postStrings (JString value) now strings
    = (Created None r, (strings ++ [(SHA256.hex "", r)])%list)
    /\ Analyzed.value r = ""
    /\ Properties.length (Analyzed.properties r) = 0
    /\ Properties.word_count (Analyzed.properties r) = 1
    /\ Properties.is_palindrome (Analyzed.properties r) = true.
Proof.
  intros N B H. unfold Part000.postStrings.
  destruct (String.eqb_spec value "") as [Z|_]; [contradiction|].
  apply trim_blank in B. rewrite B. cbn [JS.toLowerCase]. rewrite H.
  eexists. split; [rewrite set_absent by exact H; reflexivity|].
  repeat split.
Qed.

Lemma part_000_stores_blank_witness :
  exists r,
    Part000.postStrings (JString "   ") stamp []
    = (Created None r, ([] ++ [(SHA256.hex "", r)])%list)
    /\ Analyzed.value r = ""
    /\ Properties.length (Analyzed.properties r) = 0
    /\ Properties.word_count (Analyzed.properties r) = 1
    /\ Properties.is_palindrome (Analyzed.properties r) = true.
Proof.
  apply (part_000_stores_blank "   " stamp []).
  - discriminate.
  - reflexivity.
  - reflexivity.
Defined.

(** X21.  [GET /strings] of [part_000] answers 200 exactly when the
    numbers that are given parse (a negative one passes) and
    [contains_character], when given, is exactly one character; it
    never refuses [is_palindrome], and echoes the query as it came. *)
Theorem part_000_listStrings_accepts (q : Query.t) (strings : Store.t) :
  (validQuery000 q = true ->
   exists data,
     Part000.listStrings q strings = Echoed data (Z.of_nat (List.length data)) q)
  /\ (validQuery000 q = false ->
      exists message, Part000.listStrings q strings = Error 400 message).
Proof.
  unfold validQuery000, Part000.listStrings.
  destruct q as [qp qmin qmax qw qc].
  unfold andThen, parses, oneChar, whenGiven.
  cbn [Query.is_palindrome Query.min_length Query.max_length Query.word_count
       Query.contains_character].
  destruct qp as [rp|];
  (destruct qmin as [rmin|]; [destruct (JS.parseIntNoRadix rmin) as [mn|]|]);
  cbn [negb andb orb];
  (destruct qmax as [rmax|]; [destruct (JS.parseIntNoRadix rmax) as [mx|]|]);
  cbn [negb andb orb];
  (destruct qw as [rw|]; [destruct (JS.parseIntNoRadix rw) as [w|]|]);
  cbn [negb andb orb];
  (destruct qc as [c|]; [destruct (JS.length c =? 1)|]);
  cbn [negb andb orb];
  (split; intros H; try discriminate H; eexists; reflexivity).
Qed.

Lemma part_000_listStrings_accepts_witness :
  exists data,
    Part000.listStrings (Query.mk (Some "maybe") (Some "-3") None None None) []
    = Echoed data (Z.of_nat (List.length data))
        (Query.mk (Some "maybe") (Some "-3") None None None).
Proof.
  apply (part_000_listStrings_accepts
           (Query.mk (Some "maybe") (Some "-3") None None None) []).
  reflexivity.
Defined.

(* ================================================================== *)
(** ** The shape of an id *)
(* ================================================================== *)

Section DigestShape.

Lemma length_be_bytes (n : nat) (x : Z) : List.length (SHA256.be_bytes n x) = n.
Proof. induction n as [|n IH]; simpl; [reflexivity | now rewrite IH]. Qed.

Lemma be_bytes_range (n : nat) (x : Z) :
  Forall (fun b => 0 <= b < 256) (SHA256.be_bytes n x).
Proof.
  induction n as [|n IH]; simpl; constructor; [|exact IH].
  apply Z.mod_pos_bound. lia.
Qed.

Lemma length_compress (h block : list Z) :
  List.length h = 8%nat -> List.length (SHA256.compress h block) = 8%nat.
Proof.
  intros H. unfold SHA256.compress. cbv zeta.
  rewrite length_map, length_combine, H. reflexivity.
Qed.

Lemma length_digest_words (msg : list Z) :
  List.length (SHA256.digest_words msg) = 8%nat.
Proof.
  unfold SHA256.digest_words. cbv zeta.
  generalize (SHA256.blocks
                (List.length (SHA256.words (List.length (SHA256.pad msg))
                                (SHA256.pad msg)))
                (SHA256.words (List.length (SHA256.pad msg)) (SHA256.pad msg))).
  assert (G : forall bs h, List.length h = 8%nat ->
              List.length (fold_left SHA256.compress bs h) = 8%nat).
  { induction bs as [|b bs IH]; intros h H; simpl; [exact H|].
    apply IH. now apply length_compress. }
  intros bs. now apply G.
Qed.

Lemma length_flat_be_bytes (ws : list Z) :
  List.length (flat_map (SHA256.be_bytes 4) ws) = (4 * List.length ws)%nat.
Proof.
  induction ws as [|w ws IH]; [reflexivity|].
  cbn [flat_map]. rewrite length_app, length_be_bytes, IH. simpl. lia.
Qed.

Lemma flat_be_bytes_range (ws : list Z) :
  Forall (fun b => 0 <= b < 256) (flat_map (SHA256.be_bytes 4) ws).
Proof.
  induction ws as [|w ws IH]; [constructor|].
  cbn [flat_map]. apply Forall_app. split; [apply be_bytes_range | exact IH].
Qed.

Lemma hex_digit_lower (d : Z) :
  0 <= d < 16 -> isLowerHex (SHA256.hex_digit d) = true.
Proof.
  intros H. rewrite <- (Z2Nat.id d) by lia.
  assert (L : (Z.to_nat d < 16)%nat) by lia.
  generalize dependent (Z.to_nat d). intros n L.
  do 16 (destruct n as [|n]; [reflexivity|]). lia.
Qed.

Lemma hex_of_bytes_shape (bs : list Z) :
  Forall (fun b => 0 <= b < 256) bs ->
  String.length (SHA256.hex_of_bytes bs) = (2 * List.length bs)%nat
  /\ forallb isLowerHex (list_ascii_of_string (SHA256.hex_of_bytes bs)) = true.
Proof.
  induction 1 as [|b bs Hb _ [IH1 IH2]]; [split; reflexivity|].
  cbn [SHA256.hex_of_bytes String.length list_ascii_of_string forallb List.length].
  split; [rewrite IH1; lia|].
  rewrite IH2, !hex_digit_lower; [reflexivity| |].
  - apply Z.mod_pos_bound. lia.
  - split; [apply Z.div_pos; lia | apply Z.div_lt_upper_bound; lia].
Qed.

End DigestShape.

(** X22.  The id of a record (and its [sha256_hash]) is always a text of
    64 characters, each one of [0-9a-f]. *)
Theorem id_shape (value now : string) :
  let analyzed := Server.analyzeString value now in
  String.length (Analyzed.id analyzed) = 64%nat
  /\ forallb isLowerHex (list_ascii_of_string (Analyzed.id analyzed)) = true
  /\ Properties.sha256_hash (Analyzed.properties analyzed) = Analyzed.id analyzed.
Proof.
  cbv zeta. unfold Server.analyzeString. cbn [Analyzed.id Analyzed.properties
    Properties.sha256_hash]. unfold SHA256.hex.
  destruct (hex_of_bytes_shape _
              (flat_be_bytes_range
                 (SHA256.digest_words (SHA256.bytes_of_string value))))
    as [L F].
  split; [|split; [exact F | reflexivity]].
  rewrite L, length_flat_be_bytes, length_digest_words. reflexivity.
Qed.

(* ================================================================== *)
(** ** Where the length bounds come from *)
(* ================================================================== *)



(* ================================================================== *)
(** ** Sample instances *)
(* ================================================================== *)

Lemma run_wellStored_witness :
  SHA256.hex "racecar" = SHA256.hex (Analyzed.value (Server.analyzeString "racecar" stamp))
  /\ Store.get (SHA256.hex "racecar") (run [POST_strings (JString " racecar") stamp])
     = Some (Server.analyzeString "racecar" stamp).
Proof.
  apply (proj2 (run_wellStored [POST_strings (JString " racecar") stamp])
           (SHA256.hex "racecar") (Server.analyzeString "racecar" stamp)).
  vm_compute. left. reflexivity.
Defined.


